(** * The vLLM client wrappers of localGPTvLLM, embedded in Rocq

    The two Python modules [backend/ollama_client.py] and
    [rag_system/utils/ollama_client.py] each define a class [VLLMClient]
    that turns method calls into HTTP requests against an OpenAI-compatible
    server.  This development embeds the methods as functions of a small
    state-and-exception monad over a world that holds the Python list
    objects, the requests put on the wire, the lines printed and the
    fragments a generator has yielded.

    What the Python runtime and its libraries supply ([json.loads],
    [str.lower], the HTTP exchange of [requests], the PNG encoder of Pillow,
    the process environment) is a parameter of the development: the class
    [Runtime].  Everything the client code itself does (subscripts,
    membership tests, truth tests, the regular-expression clean-up, the
    line loop of the streaming methods) is translated from the source. *)

From Stdlib Require Import Floats DecimalString.
From stdpp Require Import gmap list strings.

Set Warnings "-register-all".
Open Scope N_scope.

(** ** Python strings and bytes *)

Module Py.

(** A Python [str] is a sequence of Unicode code points. *)
Definition pystr := list N.

(** A Python [bytes] object. *)
Definition bytes := list Byte.byte.

(** String literals of the source, written as Rocq strings. *)
Definition str (s : string) : pystr :=
  map Ascii.N_of_ascii (String.list_ascii_of_string s).

Definition b (s : string) : bytes := String.list_byte_of_string s.

Definition streq (s t : pystr) : bool := bool_decide (s = t).

(** [str(n)] for an [int]. *)
Definition str_of_int (z : Z) : pystr :=
  str (NilZero.string_of_int (Z.to_int z)).

(** [s.startswith(p)] *)
Fixpoint startswith (s p : pystr) : bool :=
  match p, s with
  | [], _ => true
  | _ :: _, [] => false
  | c :: p', d :: s' => (c =? d) && startswith s' p'
  end.

(** [p in s] for two strings: [p] occurs in [s] as a substring. *)
Fixpoint contains (s p : pystr) : bool :=
  startswith s p ||
  match s with
  | [] => false
  | _ :: s' => contains s' p
  end.

(** [Py_UNICODE_ISSPACE]: the code points [str.strip()] removes. *)
Definition isspace (c : N) : bool :=
  ((0x09 <=? c) && (c <=? 0x0D)) || ((0x1C <=? c) && (c <=? 0x20))
  || (c =? 0x85) || (c =? 0xA0) || (c =? 0x1680)
  || ((0x2000 <=? c) && (c <=? 0x200A))
  || (c =? 0x2028) || (c =? 0x2029) || (c =? 0x202F) || (c =? 0x205F)
  || (c =? 0x3000).

(** [s.lstrip()] *)
Fixpoint lstrip (s : pystr) : pystr :=
  match s with
  | [] => []
  | c :: s' => if isspace c then lstrip s' else s
  end.

(** [s.rstrip()] *)
Definition rstrip (s : pystr) : pystr := reverse (lstrip (reverse s)).

(** [s.strip()] *)
Definition strip (s : pystr) : pystr := rstrip (lstrip s).

(** [s.rstrip('/')], of the constructors. *)
Fixpoint lstrip_char (c : N) (s : pystr) : pystr :=
  match s with
  | [] => []
  | d :: s' => if c =? d then lstrip_char c s' else s
  end.

Definition rstrip_char (c : N) (s : pystr) : pystr :=
  reverse (lstrip_char c (reverse s)).

(** [bs.decode('utf-8')], strict: [None] stands for [UnicodeDecodeError].
    Overlong forms, surrogates and code points above U+10FFFF are refused. *)
Definition is_cont (x : N) : bool := (0x80 <=? x) && (x <=? 0xBF).

Fixpoint utf8_decode (bs : list N) : option pystr :=
  match bs with
  | [] => Some []
  | b0 :: r0 =>
      if b0 <? 0x80 then cons b0 <$> utf8_decode r0
      else if (0xC2 <=? b0) && (b0 <=? 0xDF) then
        match r0 with
        | b1 :: r1 =>
            if is_cont b1
            then cons ((b0 - 0xC0) * 64 + (b1 - 0x80)) <$> utf8_decode r1
            else None
        | _ => None
        end
      else if (0xE0 <=? b0) && (b0 <=? 0xEF) then
        match r0 with
        | b1 :: b2 :: r2 =>
            if ((if b0 =? 0xE0 then 0xA0 else 0x80) <=? b1)
               && (b1 <=? (if b0 =? 0xED then 0x9F else 0xBF))
               && is_cont b2
            then cons ((b0 - 0xE0) * 4096 + (b1 - 0x80) * 64 + (b2 - 0x80))
                   <$> utf8_decode r2
            else None
        | _ => None
        end
      else if (0xF0 <=? b0) && (b0 <=? 0xF4) then
        match r0 with
        | b1 :: b2 :: b3 :: r3 =>
            if ((if b0 =? 0xF0 then 0x90 else 0x80) <=? b1)
               && (b1 <=? (if b0 =? 0xF4 then 0x8F else 0xBF))
               && is_cont b2 && is_cont b3
            then cons ((b0 - 0xF0) * 262144 + (b1 - 0x80) * 4096
                       + (b2 - 0x80) * 64 + (b3 - 0x80))
                   <$> utf8_decode r3
            else None
        | _ => None
        end
      else None
  end.

Definition decode_utf8 (bs : bytes) : option pystr :=
  utf8_decode (map Byte.to_N bs).

(** ** Python values

    The objects the client handles: what [json.loads] returns, and what the
    client puts into a request body.  A [dict] keeps its insertion order;
    its keys are strings, as in every JSON object. *)
Inductive value :=
| VNone
| VBool (x : bool)
| VInt (z : Z)
| VFloat (f : float)
| VStr (s : pystr)
| VList (l : list value)
| VDict (d : list (pystr * value)).

(** The exceptions that occur.  [RequestException] stands for the class
    [requests.exceptions.RequestException] and all its subclasses, told
    apart by [request_error]; the message is what [str(e)] gives. *)
Inductive request_error :=
| ConnectionError   (* connection refused, DNS failure *)
| Timeout
| HTTPError         (* raised by [raise_for_status] *)
| InvalidJSON       (* [requests.exceptions.JSONDecodeError], of [Response.json] *)
| ChunkedEncodingError.

Inductive exn :=
| RequestException (k : request_error) (msg : pystr)
| JSONDecodeError   (* [json.JSONDecodeError], of [json.loads] *)
| UnicodeDecodeError
| KeyError
| IndexError
| TypeError
| AttributeError
| RecursionError
| ValueError.

Inductive res (A : Type) :=
| Ok (a : A)
| Raise (e : exn).
Arguments Ok {A} a.
Arguments Raise {A} e.

(** [d.get(k)] on the association list of a [dict]. *)
Fixpoint dict_lookup (d : list (pystr * value)) (k : pystr) : option value :=
  match d with
  | [] => None
  | (k', v) :: d' => if streq k' k then Some v else dict_lookup d' k
  end.

(** [v[k]] for a string key [k]. *)
Definition getitem_key (v : value) (k : pystr) : res value :=
  match v with
  | VDict d =>
      match dict_lookup d k with
      | Some x => Ok x
      | None => Raise KeyError
      end
  | _ => Raise TypeError
  end.

(** [v[i]] for an integer index [i]; a negative index counts from the end. *)
Definition index_of (len : nat) (i : Z) : option nat :=
  let n := Z.of_nat len in
  if (0 <=? i)%Z && (i <? n)%Z then Some (Z.to_nat i)
  else if (i <? 0)%Z && (- n <=? i)%Z then Some (Z.to_nat (n + i))
  else None.

Definition getitem_idx (v : value) (i : Z) : res value :=
  match v with
  | VList l =>
      match index_of (length l) i ≫= λ n, l !! n with
      | Some x => Ok x
      | None => Raise IndexError
      end
  | VStr s =>
      match index_of (length s) i ≫= λ n, s !! n with
      | Some c => Ok (VStr [c])
      | None => Raise IndexError
      end
  | VDict _ => Raise KeyError
  | _ => Raise TypeError
  end.

(** [k in v] for a string [k]: a key of a [dict], an element of a [list],
    a substring of a [str]. *)
Definition is_str (k : pystr) (v : value) : bool :=
  match v with
  | VStr s => streq s k
  | _ => false
  end.

Definition contains_str (v : value) (k : pystr) : res bool :=
  match v with
  | VDict d => Ok (bool_decide (is_Some (dict_lookup d k)))
  | VList l => Ok (existsb (is_str k) l)
  | VStr s => Ok (contains s k)
  | _ => Raise TypeError
  end.

(** [len(v)] *)
Definition len (v : value) : res Z :=
  match v with
  | VDict d => Ok (Z.of_nat (length d))
  | VList l => Ok (Z.of_nat (length l))
  | VStr s => Ok (Z.of_nat (length s))
  | _ => Raise TypeError
  end.

(** [v.get(k, dflt)]: only a [dict] has the method. *)
Definition get_method (v : value) (k : pystr) (dflt : value) : res value :=
  match v with
  | VDict d => Ok (default dflt (dict_lookup d k))
  | _ => Raise AttributeError
  end.

(** The truth value of an object, as [if v:] takes it. *)
Definition truthy (v : value) : bool :=
  match v with
  | VNone => false
  | VBool x => x
  | VInt z => negb (z =? 0)%Z
  | VFloat f => negb (PrimFloat.eqb f 0)
  | VStr s => negb (bool_decide (s = []))
  | VList l => negb (bool_decide (length l = 0%nat))
  | VDict d => negb (bool_decide (length d = 0%nat))
  end.

End Py.

(** ** The regular expressions of [chat]

    [chat] calls [re.sub(pattern, '', text, flags=re.DOTALL | re.IGNORECASE)]
    with the patterns [<think>.*?</think>] and [<thinking>.*?</thinking>].
    The engine below is the backtracking matcher of [re] for what these
    patterns are made of: literal characters, compared without regard to
    case, and the lazy [.*?], which under [DOTALL] takes any character,
    newlines too. *)

Module Re.
Import Py.

Inductive item :=
| Lit (c : N)     (* a literal character, under IGNORECASE *)
| AnyLazy.        (* [.*?] under DOTALL *)

(** Reading a pattern: [.*?] is the only operator the two patterns use. *)
Fixpoint compile_from (skip : nat) (p : pystr) : list item :=
  match p with
  | [] => []
  | c :: p' =>
      match skip with
      | S k => compile_from k p'
      | O =>
          if startswith p (str ".*?")
          then AnyLazy :: compile_from 2 p'
          else Lit c :: compile_from 0 p'
      end
  end.

Definition compile (p : pystr) : list item := compile_from 0 p.

Definition ascii_lower (c : N) : N :=
  if (65 <=? c) && (c <=? 90) then c + 32 else c.

(** Does the text character [d] match the ASCII pattern character [c] under
    [re.IGNORECASE]?  Besides the two cases of a letter, the engine accepts
    the code points whose lower case is the letter or that its table of
    case equivalences lists: U+0130 and U+0131 for [i], U+212A for [k],
    U+017F for [s]. *)
Definition lit_matches (c d : N) : bool :=
  let lc := ascii_lower c in
  (ascii_lower d =? lc)
  || ((lc =? 105) && ((d =? 0x130) || (d =? 0x131)))
  || ((lc =? 107) && (d =? 0x212A))
  || ((lc =? 115) && (d =? 0x17F)).

(** Matching the pattern at the start of the text: the number of characters
    of the first match the backtracking finds, if there is one.  [.*?] first
    tries to go on without taking a character, and takes one more each time
    the rest of the pattern fails. *)
Fixpoint match_here (p : list item) : pystr -> option nat :=
  match p with
  | [] => fun _ => Some 0%nat
  | Lit c :: p' => fun s =>
      match s with
      | d :: s' => if lit_matches c d then S <$> match_here p' s' else None
      | [] => None
      end
  | AnyLazy :: p' =>
      fix lazy (s : pystr) : option nat :=
        match match_here p' s with
        | Some n => Some n
        | None =>
            match s with
            | _ :: s' => S <$> lazy s'
            | [] => None
            end
        end
  end.

(** [re.sub(p, '', s)]: the text is scanned from the left; where the
    pattern matches, the match is left out and the scan goes on behind it;
    elsewhere the character is kept.  [fuel] bounds the number of steps;
    the length of the text is enough, see [sub_go_fuel].  A pattern that
    matches the empty string is not in the domain of this model: both
    patterns of the client start with a literal. *)
Fixpoint sub_go (p : list item) (fuel : nat) (s : pystr) : pystr :=
  match fuel with
  | O => s
  | S fuel' =>
      match s with
      | [] => []
      | c :: s' =>
          match match_here p s with
          | Some (S n) => sub_go p fuel' (drop n s')
          | _ => c :: sub_go p fuel' s'
          end
      end
  end.

Definition sub (p : list item) (s : pystr) : pystr :=
  sub_go p (length s) s.

Definition think_re : list item := compile (str "<think>.*?</think>").
Definition thinking_re : list item := compile (str "<thinking>.*?</thinking>").

End Re.

(** ** The HTTP exchange, as [requests] presents it *)

Module Http.
Import Py.

Inductive method := GET | POST.

(** What a call of [requests.get] or [requests.post] puts on the wire.
    [req_timeout] is the [timeout=] argument in seconds; [None] is the
    default of [requests], which waits without limit. *)
Record request := Request {
  req_method : method;
  req_url : pystr;
  req_headers : list (pystr * pystr);
  req_json : option value;
  req_stream : bool;
  req_timeout : option Z
}.

(** A response.  [text] is the body as [Response.text] gives it;
    [body_lines] is what [Response.iter_lines()] yields, and [body_error]
    the exception the iteration ends with when the connection breaks
    before the body is complete. *)
Record response := Response {
  status_code : Z;
  reason : pystr;
  url : pystr;
  text : pystr;
  body_lines : list bytes;
  body_error : option (request_error * pystr)
}.

(** The outcome of one exchange: a response with whatever status, or a
    failure below HTTP, which [requests] raises as a [RequestException]. *)
Inductive net_result :=
| NetFail (k : request_error) (msg : pystr)
| NetResp (r : response).

(** [Response.raise_for_status()]: an [HTTPError] for a status from 400 to
    599, nothing otherwise. *)
Definition http_error_msg (r : response) : option pystr :=
  let line kind :=
    str_of_int (status_code r) ++ str " " ++ kind ++ str " Error: "
    ++ reason r ++ str " for url: " ++ url r in
  if (400 <=? status_code r)%Z && (status_code r <? 500)%Z
  then Some (line (str "Client"))
  else if (500 <=? status_code r)%Z && (status_code r <? 600)%Z
  then Some (line (str "Server"))
  else None.

End Http.

(** ** The runtime the client runs on *)

Import Py Http.

(** How [json.loads] fails on a text it returns no object for: the text is
    not JSON ([json.JSONDecodeError]), it is JSON nested deeper than the
    interpreter recurses ([RecursionError]), or it holds an integer of more
    digits than Python converts ([ValueError]). *)
Inductive json_failure :=
| NotJSON
| TooDeep
| TooLong.

Definition json_exception (f : json_failure) : exn :=
  match f with
  | NotJSON => JSONDecodeError
  | TooDeep => RecursionError
  | TooLong => ValueError
  end.

(** What the client takes from its environment.  [json_loads] is
    [json.loads], [None] where it raises, and [json_fails] tells how it
    fails there; [server] answers a request; [str_lower] is [str.lower];
    [getenv] is [os.getenv] without a default. *)
Class Runtime := {
  json_loads : pystr -> option value;
  json_fails : pystr -> json_failure;
  str_lower : pystr -> pystr;
  server : request -> net_result;
  getenv : pystr -> option pystr
}.

(** Pillow images and [VLLMClient._image_to_base64]: the image saved as PNG,
    the bytes in base64, as a [str]. *)
Class Imaging := {
  image : Type;
  image_to_base64 : image -> pystr
}.

(** What an f-string puts in for [{v}] when [v] is not a string: [str(v)],
    for a list its [repr]. *)
Class Formatting := {
  format_value : value -> pystr
}.

(** ** The world and the monad of the methods *)

Module Eff.

(** A reference to a Python [list] object. *)
Definition loc := positive.

(** The world: the [list] objects that exist, by reference; the requests
    sent so far; the lines printed; the values the running generator has
    yielded. *)
Record world := World {
  heap : gmap loc (list value);
  sent : list request;
  stdout : list pystr;
  yielded : list value
}.

Definition M (A : Type) : Type := world -> res A * world.

Definition ret {A} (a : A) : M A := fun w => (Ok a, w).

Definition bind {A B} (m : M A) (k : A -> M B) : M B :=
  fun w =>
    match m w with
    | (Ok a, w') => k a w'
    | (Raise e, w') => (Raise e, w')
    end.

Definition raise {A} (e : exn) : M A := fun w => (Raise e, w).

(** A pure operation that may raise. *)
Definition lift {A} (r : res A) : M A := fun w => (r, w).

(** [try: body  except requests.exceptions.RequestException as e: handler] *)
Definition try_request {A} (body : M A) (handler : pystr -> M A) : M A :=
  fun w =>
    match body w with
    | (Raise (RequestException _ msg), w') => handler msg w'
    | r => r
    end.

(** [try: body  except json.JSONDecodeError: handler] *)
Definition try_json {A} (body : M A) (handler : M A) : M A :=
  fun w =>
    match body w with
    | (Raise JSONDecodeError, w') => handler w'
    | r => r
    end.

(** A new [list] object with the given elements. *)
Definition alloc_list (l : list value) : M loc :=
  fun w =>
    let r := fresh (dom (heap w)) in
    (Ok r, World (<[r := l]> (heap w)) (sent w) (stdout w) (yielded w)).

(** The elements of a [list] object. *)
Definition read_list (r : loc) : M (list value) :=
  fun w => (Ok (heap w !!! r), w).

(** [lst.append(v)]: the object itself changes. *)
Definition append_list (r : loc) (v : value) : M unit :=
  fun w =>
    (Ok tt, World (<[r := heap w !!! r ++ [v]]> (heap w))
                  (sent w) (stdout w) (yielded w)).

Definition print (line : pystr) : M unit :=
  fun w => (Ok tt, World (heap w) (sent w) (stdout w ++ [line]) (yielded w)).

(** [yield v] *)
Definition yield (v : value) : M unit :=
  fun w => (Ok tt, World (heap w) (sent w) (stdout w) (yielded w ++ [v])).

(** [requests.get] and [requests.post]: the request goes out, and the
    answer of the server is a response or a [RequestException]. *)
Definition send `{Runtime} (req : request) : M response :=
  fun w =>
    let w' := World (heap w) (sent w ++ [req]) (stdout w) (yielded w) in
    match server req with
    | NetFail k msg => (Raise (RequestException k msg), w')
    | NetResp r => (Ok r, w')
    end.

(** [response.json()]: [requests] turns the [json.JSONDecodeError] of
    [json.loads] into its own, a [RequestException], and lets every other
    exception through. *)
Definition response_json `{Runtime} (r : response) : M value :=
  match json_loads (text r) with
  | Some v => ret v
  | None =>
      match json_fails (text r) with
      | NotJSON =>
          raise (RequestException InvalidJSON (str "Expecting value"))
      | f => raise (json_exception f)
      end
  end.

(** [response.raise_for_status()] *)
Definition raise_for_status (r : response) : M unit :=
  match http_error_msg r with
  | Some msg => raise (RequestException HTTPError msg)
  | None => ret tt
  end.

(** [json.loads(s)] *)
Definition loads `{Runtime} (s : pystr) : M value :=
  match json_loads s with
  | Some v => ret v
  | None => raise (json_exception (json_fails s))
  end.

(** [bs.decode('utf-8')] *)
Definition decode (bs : bytes) : M pystr :=
  match decode_utf8 bs with
  | Some s => ret s
  | None => raise UnicodeDecodeError
  end.

End Eff.

#[global] Instance M_ret : MRet Eff.M := @Eff.ret.
#[global] Instance M_bind : MBind Eff.M := fun A B k m => Eff.bind m k.

(** More of Python, in the monad. *)
Module PyM.
Import Eff.

(** [for x in v]: the elements of a [list], the keys of a [dict], the
    characters of a [str]; nothing else the client meets is iterable. *)
Definition iterate (v : value) : res (list value) :=
  match v with
  | VList l => Ok l
  | VDict d => Ok (map (fun kv => VStr kv.1) d)
  | VStr s => Ok (map (fun c => VStr [c]) s)
  | _ => Raise TypeError
  end.

(** [[f(x) for x in xs]] *)
Fixpoint comprehension (f : value -> M value) (xs : list value)
  : M (list value) :=
  match xs with
  | [] => mret []
  | x :: xs' =>
      y ← f x;
      ys ← comprehension f xs';
      mret (y :: ys)
  end.

(** [re.sub(p, '', v, flags=re.DOTALL | re.IGNORECASE)]: [v] must be a
    string. *)
Definition re_sub (p : list Re.item) (v : value) : res value :=
  match v with
  | VStr s => Ok (VStr (Re.sub p s))
  | _ => Raise TypeError
  end.

(** [v.strip()] and [v.lower()]: methods of [str]. *)
Definition strip_method (v : value) : res value :=
  match v with
  | VStr s => Ok (VStr (strip s))
  | _ => Raise AttributeError
  end.

Definition lower_method `{Runtime} (v : value) : res pystr :=
  match v with
  | VStr s => Ok (str_lower s)
  | _ => Raise AttributeError
  end.

(** The string an f-string puts in for [{v}] when [v] is a string. *)
Definition json_headers : list (pystr * pystr) :=
  [(str "Content-Type", str "application/json")].

(** [x or y] on optional strings: [x] if it is a non-empty string. *)
Definition or_else (x y : option pystr) : option pystr :=
  match x with
  | Some (_ :: _) => x
  | _ => y
  end.

End PyM.

(** ** [backend/ollama_client.py] *)

Module Backend.
Import Eff PyM.

Record VLLMClient := {
  base_url : pystr;
  api_key : option pystr;
  headers : list (pystr * pystr)
}.

(** [VLLMClient.__init__] *)
Definition init `{Runtime} (base_url api_key : option pystr) : VLLMClient :=
  let base_url :=
    match base_url with
    | None => default (str "http://localhost:8000") (getenv (str "VLLM_HOST"))
    | Some u => u
    end in
  let api_key := or_else api_key (getenv (str "VLLM_API_KEY")) in
  {| base_url := rstrip_char 47 base_url;
     api_key := api_key;
     headers :=
       match api_key with
       | Some (c :: k) =>
           json_headers ++ [(str "Authorization", str "Bearer " ++ c :: k)]
       | _ => json_headers
       end |}.

(** [VLLMClient.is_server_running] *)
Definition is_server_running `{Runtime} (self : VLLMClient) : M value :=
  try_request
    (response ← send (Request GET (base_url self ++ str "/v1/models")
                        (headers self) None false (Some 5%Z));
     mret (VBool (status_code response =? 200)%Z))
    (fun _ => mret (VBool false)).

(** [VLLMClient.list_models] *)
Definition list_models `{Runtime} (self : VLLMClient) : M value :=
  try_request
    (response ← send (Request GET (base_url self ++ str "/v1/models")
                        (headers self) None false None);
     if (status_code response =? 200)%Z then
       result ← response_json response;
       models_data ← lift (get_method result (str "data") (VList []));
       models ← lift (iterate models_data);
       ids ← comprehension (fun model => lift (getitem_key model (str "id")))
               models;
       mret (VList ids)
     else mret (VList []))
    (fun e =>
       print (str "Error fetching models: " ++ e);;
       mret (VList [])).

(** [VLLMClient.pull_model] *)
Definition pull_model `{Runtime} `{Formatting} (self : VLLMClient)
    (model_name : pystr) : M value :=
  available_models ← list_models self;
  listed ← lift (contains_str available_models model_name);
  if listed : bool then
    print (str "Model " ++ model_name ++ str " is available");;
    mret (VBool true)
  else
    print (str "Model " ++ model_name
           ++ str " not found in available models: "
           ++ format_value available_models);;
    mret (VBool false).

Definition user_message (message : pystr) : value :=
  VDict [(str "role", VStr (str "user")); (str "content", VStr message)].

(** The [payload] of [chat] and [chat_stream]. *)
Definition chat_payload (model : pystr) (messages : list value)
    (stream : bool) : value :=
  VDict [(str "model", VStr model);
         (str "messages", VList messages);
         (str "stream", VBool stream);
         (str "temperature", VFloat 0x1.6666666666666p-1);
         (str "top_p", VFloat 0x1.ccccccccccccdp-1)].

(** [VLLMClient.chat]; [conversation_history] is [None] or a reference to
    the caller's list. *)
Definition chat `{Runtime} (self : VLLMClient) (message model : pystr)
    (conversation_history : option loc) (enable_thinking : bool) : M value :=
  conversation_history ←
    match conversation_history with
    | None => alloc_list []
    | Some r => mret r
    end;
  history ← read_list conversation_history;
  messages ← alloc_list (history ++ [user_message message]);
  try_request
    (messages ← read_list messages;
     let payload := chat_payload model messages false in
     response ← send (Request POST
                        (base_url self ++ str "/v1/chat/completions")
                        (headers self) (Some payload) false (Some 180%Z));
     if (status_code response =? 200)%Z then
       result ← response_json response;
       choices ← lift (getitem_key result (str "choices"));
       choice ← lift (getitem_idx choices 0);
       msg ← lift (getitem_key choice (str "message"));
       response_text ← lift (getitem_key msg (str "content"));
       if negb enable_thinking then
         response_text ← lift (re_sub Re.think_re response_text);
         response_text ← lift (re_sub Re.thinking_re response_text);
         response_text ← lift (strip_method response_text);
         mret response_text
       else mret response_text
     else
       mret (VStr (str "Error: " ++ str_of_int (status_code response)
                   ++ str " - " ++ text response)))
    (fun e => mret (VStr (str "Connection error: " ++ e))).

(** The body of the line loop of [chat_stream], from [try:] on. *)
Definition chat_stream_line `{Runtime} (enable_thinking : bool)
    (line_text : pystr) : M unit :=
  try_json
    (data ← loads line_text;
     has_choices ← lift (contains_str data (str "choices"));
     nonempty ←
       (if has_choices : bool then
          choices ← lift (getitem_key data (str "choices"));
          n ← lift (len choices);
          mret (0 <? n)%Z
        else mret false);
     if nonempty : bool then
       choices ← lift (getitem_key data (str "choices"));
       choice ← lift (getitem_idx choices 0);
       delta ← lift (get_method choice (str "delta") (VDict []));
       content ← lift (get_method delta (str "content") (VStr []));
       if truthy content then
         if negb enable_thinking then
           lowered ← lift (lower_method content);
           if contains lowered (str "<think>")
              || contains lowered (str "<thinking>")
           then mret tt
           else yield content
         else yield content
       else mret tt
     else mret tt)
    (mret tt).

(** [for line in response.iter_lines(): ...] of [chat_stream]. *)
Fixpoint chat_stream_lines `{Runtime} (enable_thinking : bool)
    (lines : list bytes) (err : option (request_error * pystr)) : M unit :=
  match lines with
  | [] =>
      match err with
      | Some (k, msg) => raise (RequestException k msg)
      | None => mret tt
      end
  | line :: rest =>
      if bool_decide (line = []) then chat_stream_lines enable_thinking rest err
      else
        line_text ← decode line;
        let line_text :=
          if startswith line_text (str "data: ") then drop 6 line_text
          else line_text in
        if streq (strip line_text) (str "[DONE]") then mret tt
        else
          chat_stream_line enable_thinking line_text;;
          chat_stream_lines enable_thinking rest err
  end.

(** [VLLMClient.chat_stream], run until the generator is exhausted: the
    fragments are in [yielded]. *)
Definition chat_stream `{Runtime} (self : VLLMClient) (message model : pystr)
    (conversation_history : option loc) (enable_thinking : bool) : M unit :=
  conversation_history ←
    match conversation_history with
    | None => alloc_list []
    | Some r => mret r
    end;
  history ← read_list conversation_history;
  messages ← alloc_list (history ++ [user_message message]);
  try_request
    (messages ← read_list messages;
     let payload := chat_payload model messages true in
     response ← send (Request POST
                        (base_url self ++ str "/v1/chat/completions")
                        (headers self) (Some payload) true (Some 180%Z));
     if (status_code response =? 200)%Z then
       chat_stream_lines enable_thinking (body_lines response)
         (body_error response)
     else
       yield (VStr (str "Error: " ++ str_of_int (status_code response)
                    ++ str " - " ++ text response)))
    (fun e => yield (VStr (str "Connection error: " ++ e))).

End Backend.

(** ** [rag_system/utils/ollama_client.py] *)

Module Rag.
Import Eff PyM.

Record VLLMClient := {
  host : pystr;
  api_key : option pystr;
  headers : list (pystr * pystr)
}.

(** [VLLMClient.__init__] *)
Definition init `{Runtime} (host api_key : option pystr) : VLLMClient :=
  let host :=
    match host with
    | None => default (str "http://localhost:8000") (getenv (str "VLLM_HOST"))
    | Some u => u
    end in
  let api_key := or_else api_key (getenv (str "VLLM_API_KEY")) in
  {| host := rstrip_char 47 host;
     api_key := api_key;
     headers :=
       match api_key with
       | Some (c :: k) =>
           json_headers ++ [(str "Authorization", str "Bearer " ++ c :: k)]
       | _ => json_headers
       end |}.

(** [VLLMClient.generate_embedding] *)
Definition generate_embedding `{Runtime} (self : VLLMClient)
    (model text : pystr) : M value :=
  try_request
    (response ← send (Request POST (host self ++ str "/v1/embeddings")
                        (headers self)
                        (Some (VDict [(str "model", VStr model);
                                      (str "input", VStr text)]))
                        false None);
     raise_for_status response;;
     result ← response_json response;
     has_data ← lift (contains_str result (str "data"));
     nonempty ←
       (if has_data : bool then
          data ← lift (getitem_key result (str "data"));
          n ← lift (len data);
          mret (0 <? n)%Z
        else mret false);
     if nonempty : bool then
       data ← lift (getitem_key result (str "data"));
       first ← lift (getitem_idx data 0);
       lift (getitem_key first (str "embedding"))
     else mret (VList []))
    (fun e =>
       print (str "Error generating embedding: " ++ e);;
       mret (VList [])).

(** The [payload] of the text-completion endpoint. *)
Definition completion_payload (model prompt : pystr) (stream : bool) : value :=
  VDict [(str "model", VStr model);
         (str "prompt", VStr prompt);
         (str "stream", VBool stream);
         (str "max_tokens", VInt 1024);
         (str "temperature", VFloat 0x1.6666666666666p-1)].

Definition text_part (prompt : pystr) : value :=
  VDict [(str "type", VStr (str "text")); (str "text", VStr prompt)].

Definition image_part `{Imaging} (img : image) : value :=
  let img_b64 := image_to_base64 img in
  VDict [(str "type", VStr (str "image_url"));
         (str "image_url",
          VDict [(str "url", VStr (str "data:image/png;base64," ++ img_b64))])].

(** [for img in images: messages[0]["content"].append({...})]: the loop
    extends the one list object that is the content of the message. *)
Fixpoint append_images `{Imaging} (content : loc) (images : list image)
  : M unit :=
  match images with
  | [] => mret tt
  | img :: rest =>
      append_list content (image_part img);;
      append_images content rest
  end.

(** The [chat_payload] of the image branch, as it is serialised when the
    request is sent: the content list is read then. *)
Definition vision_payload (model : pystr) (content : list value)
    (stream : bool) : value :=
  VDict [(str "model", VStr model);
         (str "messages",
          VList [VDict [(str "role", VStr (str "user"));
                        (str "content", VList content)]]);
         (str "stream", VBool stream);
         (str "max_tokens", VInt 1024);
         (str "temperature", VFloat 0x1.6666666666666p-1)].

(** [if images:] is false for [None] and for the empty list. *)
Definition some_images `{Imaging} (images : option (list image))
  : option (list image) :=
  match images with
  | Some (img :: rest) => Some (img :: rest)
  | _ => None
  end.

Definition completion_result (response : value) : value :=
  VDict [(str "response", response); (str "done", VBool true)].

(** [VLLMClient.generate_completion] *)
Definition generate_completion `{Runtime} `{Imaging} (self : VLLMClient)
    (model prompt : pystr) (images : option (list image)) : M value :=
  try_request
    (let payload := completion_payload model prompt false in
     match some_images images with
     | Some images =>
         content ← alloc_list [text_part prompt];
         append_images content images;;
         content ← read_list content;
         let chat_payload := vision_payload model content false in
         response ← send (Request POST
                            (host self ++ str "/v1/chat/completions")
                            (headers self) (Some chat_payload) false None);
         raise_for_status response;;
         result ← response_json response;
         choices ← lift (getitem_key result (str "choices"));
         choice ← lift (getitem_idx choices 0);
         msg ← lift (getitem_key choice (str "message"));
         answer ← lift (getitem_key msg (str "content"));
         mret (completion_result answer)
     | None =>
         response ← send (Request POST (host self ++ str "/v1/completions")
                            (headers self) (Some payload) false None);
         raise_for_status response;;
         result ← response_json response;
         choices ← lift (getitem_key result (str "choices"));
         choice ← lift (getitem_idx choices 0);
         answer ← lift (getitem_key choice (str "text"));
         mret (completion_result answer)
     end)
    (fun e =>
       print (str "Error generating completion: " ++ e);;
       mret (VDict [])).

(** The body of the line loop of [stream_completion] from [try:] on, in the
    image branch: the fragment is [choices[0].delta.content]. *)
Definition stream_line_chat `{Runtime} (line_text : pystr) : M unit :=
  try_json
    (data ← loads line_text;
     has_choices ← lift (contains_str data (str "choices"));
     nonempty ←
       (if has_choices : bool then
          choices ← lift (getitem_key data (str "choices"));
          n ← lift (len choices);
          mret (0 <? n)%Z
        else mret false);
     if nonempty : bool then
       choices ← lift (getitem_key data (str "choices"));
       choice ← lift (getitem_idx choices 0);
       delta ← lift (get_method choice (str "delta") (VDict []));
       chunk ← lift (get_method delta (str "content") (VStr []));
       if truthy chunk then yield chunk else mret tt
     else mret tt)
    (mret tt).

(** The same in the text branch: the fragment is [choices[0].text]. *)
Definition stream_line_text `{Runtime} (line_text : pystr) : M unit :=
  try_json
    (data ← loads line_text;
     has_choices ← lift (contains_str data (str "choices"));
     nonempty ←
       (if has_choices : bool then
          choices ← lift (getitem_key data (str "choices"));
          n ← lift (len choices);
          mret (0 <? n)%Z
        else mret false);
     if nonempty : bool then
       choices ← lift (getitem_key data (str "choices"));
       choice ← lift (getitem_idx choices 0);
       chunk ← lift (get_method choice (str "text") (VStr []));
       if truthy chunk then yield chunk else mret tt
     else mret tt)
    (mret tt).

(** [for raw_line in resp.iter_lines(): ...], the same in both branches up
    to the body [on_line]. *)
Fixpoint stream_lines (on_line : pystr -> M unit) (lines : list bytes)
    (err : option (request_error * pystr)) : M unit :=
  match lines with
  | [] =>
      match err with
      | Some (k, msg) => raise (RequestException k msg)
      | None => mret tt
      end
  | raw_line :: rest =>
      if bool_decide (raw_line = []) then stream_lines on_line rest err
      else
        line_text ← decode raw_line;
        let line_text :=
          if startswith line_text (str "data: ") then drop 6 line_text
          else line_text in
        if streq (strip line_text) (str "[DONE]") then mret tt
        else
          on_line line_text;;
          stream_lines on_line rest err
  end.

(** [VLLMClient.stream_completion], run until the generator is exhausted. *)
Definition stream_completion `{Runtime} `{Imaging} (self : VLLMClient)
    (model prompt : pystr) (images : option (list image)) : M unit :=
  let payload := completion_payload model prompt true in
  try_request
    (match some_images images with
     | Some images =>
         content ← alloc_list [text_part prompt];
         append_images content images;;
         content ← read_list content;
         let chat_payload := vision_payload model content true in
         resp ← send (Request POST (host self ++ str "/v1/chat/completions")
                        (headers self) (Some chat_payload) true None);
         raise_for_status resp;;
         stream_lines stream_line_chat (body_lines resp) (body_error resp)
     | None =>
         resp ← send (Request POST (host self ++ str "/v1/completions")
                        (headers self) (Some payload) true None);
         raise_for_status resp;;
         stream_lines stream_line_text (body_lines resp) (body_error resp)
     end)
    (fun e => yield (VStr (str "Connection error: " ++ e))).

End Rag.

(** * Specifications

    The notions the properties are stated with. *)

Import Eff PyM.

(** ** The requests the methods send *)

(** The history a call sees: the elements of the caller's list, or the
    empty list when the caller passes [None]. *)
Definition history_of (w : world) (conversation_history : option loc)
  : list value :=
  match conversation_history with
  | None => []
  | Some r => heap w !!! r
  end.

Definition models_request (self : Backend.VLLMClient) (timeout : option Z)
  : request :=
  Request GET (Backend.base_url self ++ str "/v1/models")
    (Backend.headers self) None false timeout.

Definition chat_request (self : Backend.VLLMClient) (model : pystr)
    (messages : list value) (stream : bool) : request :=
  Request POST (Backend.base_url self ++ str "/v1/chat/completions")
    (Backend.headers self)
    (Some (Backend.chat_payload model messages stream)) stream (Some 180%Z).

Definition embedding_request (self : Rag.VLLMClient) (model text : pystr)
  : request :=
  Request POST (Rag.host self ++ str "/v1/embeddings") (Rag.headers self)
    (Some (VDict [(str "model", VStr model); (str "input", VStr text)]))
    false None.

(** ** Listing the models *)

(** A model descriptor with its identifier: an object with a field [id]. *)
Definition descriptor_id (m i : value) : Prop :=
  ∃ fields, m = VDict fields ∧ dict_lookup fields (str "id") = Some i.

(** What [list_models] is to return for an outcome of the exchange: the
    identifiers of a valid listing [{"data": [{"id": ...}, ...]}], one for
    each descriptor and in the order of the descriptors; nothing for a
    status other than 200 and for a failure of the network. *)
Inductive listing `{Runtime} : net_result -> list value -> Prop :=
| listing_valid r d models ids :
    status_code r = 200%Z ->
    json_loads (text r) = Some (VDict d) ->
    dict_lookup d (str "data") = Some (VList models) ->
    Forall2 descriptor_id models ids ->
    listing (NetResp r) ids
| listing_status r :
    status_code r ≠ 200%Z ->
    listing (NetResp r) []
| listing_failure k msg :
    listing (NetFail k msg) [].

(** ** Embeddings *)

(** What [generate_embedding] is to return for an outcome of the exchange:
    the first embedding vector of a 2xx response
    [{"data": [{"embedding": ...}, ...]}]; the empty list for a 2xx
    response whose [data] is empty, for a status from 400 to 599, and for a
    failure of the network. *)
Inductive embedding `{Runtime} : net_result -> value -> Prop :=
| embedding_first r d first rest fields v :
    (200 <= status_code r < 300)%Z ->
    json_loads (text r) = Some (VDict d) ->
    dict_lookup d (str "data") = Some (VList (first :: rest)) ->
    first = VDict fields ->
    dict_lookup fields (str "embedding") = Some v ->
    embedding (NetResp r) v
| embedding_no_data r d :
    (200 <= status_code r < 300)%Z ->
    json_loads (text r) = Some (VDict d) ->
    dict_lookup d (str "data") = Some (VList []) ->
    embedding (NetResp r) (VList [])
| embedding_http_failure r :
    (400 <= status_code r < 600)%Z ->
    embedding (NetResp r) (VList [])
| embedding_net_failure k msg :
    embedding (NetFail k msg) (VList []).

(** ** Image parts *)

(** The image part of a message: the image as a PNG data URI. *)
Definition png_part `{Imaging} (img : image) : value :=
  VDict [(str "type", VStr (str "image_url"));
         (str "image_url",
          VDict [(str "url",
                  VStr (str "data:image/png;base64," ++ image_to_base64 img))])].

(** ** What a method leaves alone *)

(** A computation respects a relation on worlds when every run, whether it
    returns or raises, ends in a world related to the one it started in. *)
Definition respects {A} (P : relation world) (m : M A) : Prop :=
  ∀ w, P w (m w).2.

(** The requests on record stay as they are: true of every step but
    [send]. *)
Definition same_sent : relation world := fun w w' => sent w' = sent w.

(** The list objects that exist stay as they are: true of every step but
    [append_list]. *)
Definition same_objects : relation world := fun w w' => heap w ⊆ heap w'.

(** ** Server-sent events *)

(** The text of an event line behind the prefix [data: ]. *)
Definition sse_payload (t : pystr) : pystr :=
  if startswith t (str "data: ") then drop 6 t else t.

(** A line that does not parse: it is text, it is not the end marker, and
    [json.loads] refuses what is behind the prefix as no JSON, with
    [json.JSONDecodeError]. *)
Definition malformed `{Runtime} (line : bytes) : Prop :=
  ∃ t, decode_utf8 line = Some t
       ∧ strip (sse_payload t) ≠ str "[DONE]"
       ∧ json_loads (sse_payload t) = None
       ∧ json_fails (sse_payload t) = NotJSON.

(** The same response and the same runtime with other lines, and with
    another server. *)
Definition with_lines (r : response) (lines : list bytes) : response :=
  Response (status_code r) (reason r) (url r) (text r) lines (body_error r).

Definition with_server (R : Runtime) (s : request -> net_result) : Runtime :=
  {| json_loads := @json_loads R;
     json_fails := @json_fails R;
     str_lower := @str_lower R;
     server := s;
     getenv := @getenv R |}.

(** A JSON string: the text between two quotation marks. *)
Definition quoted (s : string) : bytes := Byte.x22 :: b s ++ [Byte.x22].

(** The event [{"choices":[{"delta":{"content":"Hi"}}]}] and the two lines
    of the stream. *)
Definition hi_event : bytes :=
  b "{" ++ quoted "choices" ++ b ":[{" ++ quoted "delta" ++ b ":{"
  ++ quoted "content" ++ b ":" ++ quoted "Hi" ++ b "}}]}".

Definition hi_line : bytes := b "data: " ++ hi_event.

Definition done_line : bytes := b "data: [DONE]".

(** What [json.loads] makes of the event. *)
Definition hi_value : value :=
  VDict [(str "choices",
          VList [VDict [(str "delta",
                         VDict [(str "content", VStr (str "Hi"))])]])].

(** ** Thinking spans *)

(** The text [u] is the tag [t], up to the case of its letters. *)
Definition is_tag (t u : pystr) : Prop :=
  Forall2 (fun c d => Re.lit_matches c d = true) t u.

(** A span starts the text: an opening tag, a body, a closing tag. *)
Definition span_at (open close s : pystr) : Prop :=
  ∃ o body c rest,
    s = o ++ body ++ c ++ rest ∧ is_tag open o ∧ is_tag close c.

(** The closing tag [c] is the first one in [body ++ c ++ rest]: no closing
    tag starts earlier. *)
Definition first_close (close body c rest : pystr) : Prop :=
  ∀ body' c' rest',
    body ++ c ++ rest = body' ++ c' ++ rest' ->
    is_tag close c' -> (length body <= length body')%nat.

(** What is left of a text when the spans between [open] and [close] are
    removed: reading from the left, where a span starts it is left out up
    to its first closing tag and reading goes on behind it; a character
    where no span starts is kept. *)
Inductive spans_removed (open close : pystr) : pystr -> pystr -> Prop :=
| removed_end :
    spans_removed open close [] []
| removed_span o body c rest out :
    is_tag open o ->
    is_tag close c ->
    first_close close body c rest ->
    spans_removed open close rest out ->
    spans_removed open close (o ++ body ++ c ++ rest) out
| removed_keep ch s out :
    ¬ span_at open close (ch :: s) ->
    spans_removed open close s out ->
    spans_removed open close (ch :: s) (ch :: out).

(** What is left of a text when the white space around it is removed. *)
Definition trimmed (s out : pystr) : Prop :=
  ∃ pre post,
    s = pre ++ out ++ post
    ∧ Forall (fun c => isspace c = true) pre
    ∧ Forall (fun c => isspace c = true) post
    ∧ (∀ c, head out = Some c -> isspace c = false)
    ∧ (∀ c, last out = Some c -> isspace c = false).

(** Does the tag stand at the start of the text? *)
Fixpoint tag_here (t s : pystr) : bool :=
  match t, s with
  | [], _ => true
  | c :: t', d :: s' => Re.lit_matches c d && tag_here t' s'
  | _ :: _, [] => false
  end.

(** The number of characters up to the end of the first closing tag. *)
Fixpoint find_close (close s : pystr) : option nat :=
  if tag_here close s then Some (length close)
  else
    match s with
    | [] => None
    | _ :: s' => S <$> find_close close s'
    end.

(** The pattern [open.*?close]. *)
Definition span_re (open close : pystr) : list Re.item :=
  map Re.Lit open ++ Re.AnyLazy :: map Re.Lit close.

(** ** The fragments of a stream *)

(** The worlds a computation may end in when all it yields satisfies [Q]:
    the fragments yielded before are still there, and the new ones satisfy
    [Q]. *)
Definition yields_only (Q : value -> Prop) : relation world :=
  fun w w' => ∃ new, yielded w' = yielded w ++ new ∧ Forall Q new.

(** A fragment that is true as a condition: for a string, a non-empty one. *)
Definition nonempty_fragment (v : value) : Prop := truthy v = true.

(** A fragment the filter of [chat_stream] lets through when thinking is
    off: a non-empty string whose lower case holds no opening tag. *)
Definition plain_fragment `{Runtime} (v : value) : Prop :=
  ∃ s, v = VStr s ∧ s ≠ []
       ∧ contains (str_lower s) (str "<think>") = false
       ∧ contains (str_lower s) (str "<thinking>") = false.

(** The line that ends a stream. *)
Definition end_marker (line : bytes) : Prop :=
  ∃ t, decode_utf8 line = Some t ∧ strip (sse_payload t) = str "[DONE]".

(** The same response with another end of its body. *)
Definition with_error (r : response) (e : option (request_error * pystr))
  : response :=
  Response (status_code r) (reason r) (url r) (text r) (body_lines r) e.

(** What [list_models] prints for an outcome of the exchange. *)
Definition listing_log (n : net_result) : list pystr :=
  match n with
  | NetFail _ msg => [str "Error fetching models: " ++ msg]
  | NetResp _ => []
  end.

(** ** Failures *)

(** The text [chat] and [chat_stream] give for an exchange that did not
    succeed: a status other than 200 with its body, a failure of the
    network with the text of the exception. *)
Inductive refusal : net_result -> pystr -> Prop :=
| refusal_status r :
    status_code r ≠ 200%Z ->
    refusal (NetResp r)
      (str "Error: " ++ str_of_int (status_code r) ++ str " - " ++ text r)
| refusal_network k msg :
    refusal (NetFail k msg) (str "Connection error: " ++ msg).

(** The exception a method of the second client catches for an exchange
    that did not succeed, by its text: the one [raise_for_status] raises for
    a status from 400 to 599, or the one of the network. *)
Inductive failure : net_result -> pystr -> Prop :=
| failure_status r msg :
    http_error_msg r = Some msg ->
    failure (NetResp r) msg
| failure_network k msg :
    failure (NetFail k msg) msg.

(** ** Events without text *)

(** The line carries the event [data]: it is text, it is not the end
    marker, and [json.loads] reads [data] from what is behind the prefix. *)
Definition event `{Runtime} (line : bytes) (data : value) : Prop :=
  ∃ t, decode_utf8 line = Some t
       ∧ strip (sse_payload t) ≠ str "[DONE]"
       ∧ json_loads (sse_payload t) = Some data.

(** The text of a choice of a chat completion, [delta.content], and of a
    text completion, [text]; a field that is missing counts as the empty
    string, a [delta] that is missing as the empty object. *)
Definition delta_content (choice : value) : option value :=
  match choice with
  | VDict c =>
      match default (VDict []) (dict_lookup c (str "delta")) with
      | VDict delta =>
          Some (default (VStr []) (dict_lookup delta (str "content")))
      | _ => None
      end
  | _ => None
  end.

Definition choice_text (choice : value) : option value :=
  match choice with
  | VDict c => Some (default (VStr []) (dict_lookup c (str "text")))
  | _ => None
  end.

(** An event with nothing to yield: an object without [choices], or with
    no choice, or one whose first choice has a text that is false as a
    condition (the empty string, [null]). *)
Inductive silent (text_of : value -> option value) : value -> Prop :=
| silent_no_choices d :
    dict_lookup d (str "choices") = None ->
    silent text_of (VDict d)
| silent_no_choice d :
    dict_lookup d (str "choices") = Some (VList []) ->
    silent text_of (VDict d)
| silent_no_text d choice others c :
    dict_lookup d (str "choices") = Some (VList (choice :: others)) ->
    text_of choice = Some c ->
    truthy c = false ->
    silent text_of (VDict d).

(** The text [stream_completion] looks for, by the images of the call. *)
Definition streamed_text {A} (images : option (list A))
  : value -> option value :=
  match images with
  | Some (_ :: _) => delta_content
  | _ => choice_text
  end.

(** ** Events with text *)



(** ** The requests of a call *)

(** The worlds a computation may end in when every request it sends
    satisfies [Q]: the record of the requests has grown by requests that
    satisfy [Q]. *)
Definition sends_only (Q : request -> Prop) : relation world :=
  fun w w' => ∃ new, sent w' = sent w ++ new ∧ Forall Q new.

(** The request carries the key as a bearer token, beside the content
    type. *)
Definition bearer (key : pystr) (req : request) : Prop :=
  req_headers req
  = [(str "Content-Type", str "application/json");
     (str "Authorization", str "Bearer " ++ key)].

(** ** Texts without spans *)

(** No span starts anywhere in the text. *)
Definition span_free (open close s : pystr) : Prop :=
  ∀ pre suf, s = pre ++ suf -> ¬ span_at open close suf.

(** ** A runtime for the examples

    A server that gives one fixed answer, [json.loads] by a table of the
    texts the examples use, [str.lower] on ASCII letters, and an empty
    environment. *)

Module Demo.

Definition runtime (reply : net_result) (table : list (pystr * value))
  : Runtime :=
  {| json_loads := dict_lookup table;
     json_fails := fun _ => NotJSON;
     str_lower := map Re.ascii_lower;
     server := fun _ => reply;
     getenv := fun _ => None |}.

(** A response with a body, and a response that is streamed as lines. *)
Definition reply_body (status : Z) (body : pystr) : response :=
  Response status (str "") (str "http://localhost:8000") body [] None.

Definition reply_lines (lines : list bytes) : response :=
  Response 200 (str "OK") (str "http://localhost:8000") [] lines None.

Definition backend (R : Runtime) : Backend.VLLMClient :=
  @Backend.init R None None.

Definition rag (R : Runtime) : Rag.VLLMClient := @Rag.init R None None.

(** Images that are their own base64 text. *)
Definition imaging : Imaging :=
  {| image := pystr; image_to_base64 := fun img => img |}.

Definition empty_world : Eff.world := Eff.World ∅ [] [] [].

End Demo.

(** The data of the examples. *)
Module Examples.
Import Demo.

Definition q (s : string) : pystr := 34 :: str s ++ [34].

(** [{"data":[{"id":"llama3.2"},{"id":"qwen3"}]}] *)
Definition models_body : pystr :=
  str "{" ++ q "data" ++ str ":[{" ++ q "id" ++ str ":" ++ q "llama3.2"
  ++ str "},{" ++ q "id" ++ str ":" ++ q "qwen3" ++ str "}]}".

Definition models_value : value :=
  VDict [(str "data",
          VList [VDict [(str "id", VStr (str "llama3.2"))];
                 VDict [(str "id", VStr (str "qwen3"))]])].

(** [{"choices":[{"message":{"content":"A<think>secret</think>B"}}]}] *)
Definition answer_body : pystr :=
  str "{" ++ q "choices" ++ str ":[{" ++ q "message" ++ str ":{"
  ++ q "content" ++ str ":" ++ q "A<think>secret</think>B" ++ str "}}]}".

Definition answer_value : value :=
  VDict [(str "choices",
          VList [VDict [(str "message",
                         VDict [(str "content",
                                 VStr (str "A<think>secret</think>B"))])]])].

(** [{"data":[{"embedding":[0.5,0.25]}]}] *)
Definition embedding_body : pystr :=
  str "{" ++ q "data" ++ str ":[{" ++ q "embedding" ++ str ":[0.5,0.25]}]}".

Definition embedding_value : value :=
  VDict [(str "data",
          VList [VDict [(str "embedding",
                         VList [VFloat 0.5; VFloat 0.25])]])].

(** The event [{"choices":[{"text":"Hi"}]}] of a text completion, and its
    line. *)
Definition text_event : bytes :=
  b "{" ++ quoted "choices" ++ b ":[{" ++ quoted "text" ++ b ":"
  ++ quoted "Hi" ++ b "}]}".


Definition text_value : value :=
  VDict [(str "choices", VList [VDict [(str "text", VStr (str "Hi"))]])].

Definition table : list (pystr * value) :=
  [(models_body, models_value);
   (answer_body, answer_value);
   (embedding_body, embedding_value);
   (str "{}", VDict []);
   (map Byte.to_N hi_event, hi_value);
   (map Byte.to_N text_event, text_value)].

Definition answering (reply : net_result) : Runtime := runtime reply table.

(** A world in which the caller holds a history of one message. *)
Definition earlier : value :=
  VDict [(str "role", VStr (str "assistant"));
         (str "content", VStr (str "Hello"))].

Definition talking : world := World {[ 1%positive := [earlier] ]} [] [] [].

Definition bad_line : bytes := b "data: {oops".





(** The runtimes of the examples, by the answer of the server. *)
Definition no_choices : Runtime :=
  answering (NetResp (Demo.reply_body 200 (str "{}"))).

Definition two_models : Runtime :=
  answering (NetResp (Demo.reply_body 200 models_body)).

Definition thinking_answer : Runtime :=
  answering (NetResp (Demo.reply_body 200 answer_body)).

Definition one_embedding : Runtime :=
  answering (NetResp (Demo.reply_body 200 embedding_body)).

Definition hi_stream : Runtime :=
  answering (NetResp (Demo.reply_lines [hi_line; done_line])).

Definition unreachable : Runtime :=
  answering (NetFail ConnectionError (str "Connection refused")).

End Examples.

(** More data for the examples. *)
Module Cases.
Import Demo Examples.

(** [repr] of the objects the examples print. *)
Fixpoint repr (v : value) : pystr :=
  match v with
  | VNone => str "None"
  | VBool true => str "True"
  | VBool false => str "False"
  | VInt z => str_of_int z
  | VFloat _ => str "<float>"
  | VStr s => 39 :: s ++ [39]
  | VList l =>
      str "["
      ++ (fix items (l : list value) : pystr :=
            match l with
            | [] => []
            | x :: l' =>
                repr x
                ++ match l' with
                   | [] => []
                   | _ :: _ => str ", " ++ items l'
                   end
            end) l
      ++ str "]"
  | VDict d =>
      str "{"
      ++ (fix items (d : list (pystr * value)) : pystr :=
            match d with
            | [] => []
            | (k, x) :: d' =>
                39 :: k ++ [39] ++ str ": " ++ repr x
                ++ match d' with
                   | [] => []
                   | _ :: _ => str ", " ++ items d'
                   end
            end) d
      ++ str "}"
  end.

Definition formatting : Formatting := {| format_value := repr |}.

(** [{"choices":[{"text":"Hello"}]}] *)
Definition completion_body : pystr :=
  str "{" ++ q "choices" ++ str ":[{" ++ q "text" ++ str ":" ++ q "Hello"
  ++ str "}]}".

Definition completion_value : value :=
  VDict [(str "choices", VList [VDict [(str "text", VStr (str "Hello"))]])].

(** [{"choices":[{"message":{"content":null}}]}] *)
Definition null_body : pystr :=
  str "{" ++ q "choices" ++ str ":[{" ++ q "message" ++ str ":{"
  ++ q "content" ++ str ":null}}]}".

Definition null_value : value :=
  VDict [(str "choices",
          VList [VDict [(str "message",
                         VDict [(str "content", VNone)])]])].

(** [{"choices":[{"message":{"content":" a<think>b "}}]}] *)
Definition unclosed_body : pystr :=
  str "{" ++ q "choices" ++ str ":[{" ++ q "message" ++ str ":{"
  ++ q "content" ++ str ":" ++ q " a<think>b " ++ str "}}]}".

Definition unclosed_value : value :=
  VDict [(str "choices",
          VList [VDict [(str "message",
                         VDict [(str "content",
                                 VStr (str " a<think>b "))])]])].

(** The event [{"choices":[{"delta":{"role":"assistant"}}]}], which opens
    a streamed answer, and its line. *)
Definition role_event : bytes :=
  b "{" ++ quoted "choices" ++ b ":[{" ++ quoted "delta" ++ b ":{"
  ++ quoted "role" ++ b ":" ++ quoted "assistant" ++ b "}}]}".

Definition role_line : bytes := b "data: " ++ role_event.

Definition role_value : value :=
  VDict [(str "choices",
          VList [VDict [(str "delta",
                         VDict [(str "role", VStr (str "assistant"))])]])].

Definition table : list (pystr * value) :=
  [(completion_body, completion_value);
   (null_body, null_value);
   (unclosed_body, unclosed_value);
   (map Byte.to_N role_event, role_value);
   (map Byte.to_N hi_event, hi_value)].

Definition serving (reply : net_result) : Runtime := runtime reply table.

(** The runtimes, by the answer of the server. *)
Definition busy : Runtime :=
  answering (NetResp (Demo.reply_body 503 (str "busy"))).

Definition not_found : Runtime :=
  answering (NetResp (Demo.reply_body 404 (str ""))).

Definition completing : Runtime :=
  serving (NetResp (Demo.reply_body 200 completion_body)).

Definition null_answer : Runtime :=
  serving (NetResp (Demo.reply_body 200 null_body)).

Definition unclosed_answer : Runtime :=
  serving (NetResp (Demo.reply_body 200 unclosed_body)).

End Cases.

(** * Properties *)

Ltac run_eff :=
  unfold try_request, try_json, mbind, M_bind, bind, mret, M_ret, ret,
    lift, raise, send, print, yield, response_json, raise_for_status,
    loads, decode, alloc_list, read_list, append_list in *;
  simpl in *.

(** ** The requests the methods send *)

Section Liveness.
Context `{Runtime}.

(** C7. [is_server_running] returns [True] exactly when the probe of the
    model-listing endpoint, sent with a timeout of five seconds, is
    answered with status 200.  It returns [False] for every failure of the
    network and every other status, and it raises in no case. *)
Theorem is_server_running_iff_200 (self : Backend.VLLMClient) (w : world) :
  ∃ (up : bool) (w' : world),
    Backend.is_server_running self w = (Ok (VBool up), w')
    ∧ sent w' = sent w ++ [models_request self (Some 5%Z)]
    ∧ (up = true ↔
       ∃ r, server (models_request self (Some 5%Z)) = NetResp r
            ∧ status_code r = 200%Z).
Proof.
  unfold Backend.is_server_running. run_eff.
  fold (models_request self (Some 5%Z)).
  destruct (server (models_request self (Some 5%Z))) as [k msg|r]; simpl.
  - exists false. eexists. split; [reflexivity|]. split; [reflexivity|].
    split; [discriminate|]. intros (r & Hr & _). discriminate Hr.
  - exists (status_code r =? 200)%Z. eexists.
    split; [reflexivity|]. split; [reflexivity|].
    rewrite Z.eqb_eq. split; [eauto|].
    intros (r' & Hr & ?). by injection Hr as ->.
Qed.

End Liveness.

(** ** Listing the models *)

Section Listing.
Context `{Runtime}.

Lemma comprehension_ids (models ids : list value) (w : world) :
  Forall2 descriptor_id models ids ->
  comprehension (fun model => lift (getitem_key model (str "id"))) models w
  = (Ok ids, w).
Proof.
  induction 1 as [|m i models ids (fields & -> & Hid) _ IH]; [done|].
  simpl. run_eff. rewrite Hid. simpl. by rewrite IH.
Qed.

(** C8. For a valid model-listing response [list_models] returns the
    identifier of every descriptor, in the order the server gave them, none
    twice and none missing; for a status other than 200 and for a failure
    of the network it returns the empty list.  In all these cases it
    returns and does not raise. *)
Theorem list_models_in_server_order (self : Backend.VLLMClient) (w : world)
    (ids : list value) :
  listing (server (models_request self None)) ids ->
  ∃ w', Backend.list_models self w = (Ok (VList ids), w').
Proof.
  intros Hl. unfold Backend.list_models.
  unfold try_request, mbind, M_bind, bind, send.
  fold (models_request self None).
  destruct Hl as [r d models ids Hst Hjs Hdata Hids|r Hst|k msg]; simpl.
  - rewrite Hst. simpl. unfold response_json. rewrite Hjs.
    run_eff. rewrite Hdata. simpl.
    rewrite (comprehension_ids _ _ _ Hids). eauto.
  - apply Z.eqb_neq in Hst. rewrite Hst. run_eff. eauto.
  - run_eff. eauto.
Qed.

End Listing.

(** ** Embeddings *)

Section Embedding.
Context `{Runtime}.

Lemma http_error_msg_2xx (r : response) :
  (200 <= status_code r < 300)%Z -> http_error_msg r = None.
Proof.
  intros Hr. unfold http_error_msg.
  destruct (Z.leb_spec 400 (status_code r)); [lia|].
  destruct (Z.leb_spec 500 (status_code r)); [lia|]. done.
Qed.

Lemma http_error_msg_failure (r : response) :
  (400 <= status_code r < 600)%Z -> is_Some (http_error_msg r).
Proof.
  intros Hr. unfold http_error_msg.
  destruct (Z.leb_spec 400 (status_code r)); [|lia].
  destruct (Z.ltb_spec (status_code r) 500); [by eexists|].
  destruct (Z.leb_spec 500 (status_code r)); [|lia].
  destruct (Z.ltb_spec (status_code r) 600); [by eexists|lia].
Qed.

(** C9. [generate_embedding] returns the first embedding vector of a
    successful response, the empty list for a 2xx response with an empty
    [data] array, and the empty list for a failure of the network or of
    HTTP (a status from 400 to 599); in each of these cases it returns and
    does not raise. *)
Theorem generate_embedding_first_or_empty (self : Rag.VLLMClient)
    (model text : pystr) (w : world) (v : value) :
  embedding (server (embedding_request self model text)) v ->
  ∃ w', Rag.generate_embedding self model text w = (Ok v, w').
Proof.
  intros He. unfold Rag.generate_embedding.
  unfold try_request, mbind, M_bind, bind, send.
  fold (embedding_request self model text).
  destruct He as [r d first rest fields v Hst Hjs Hdata -> Hemb
                 |r d Hst Hjs Hdata|r Hst|k msg]; simpl.
  - unfold raise_for_status, response_json.
    rewrite (http_error_msg_2xx _ Hst), Hjs. run_eff.
    rewrite Hdata. simpl. rewrite Hemb. eauto.
  - unfold raise_for_status, response_json.
    rewrite (http_error_msg_2xx _ Hst), Hjs. run_eff.
    rewrite Hdata. simpl. eauto.
  - unfold raise_for_status.
    destruct (http_error_msg_failure _ Hst) as [msg ->]. run_eff. eauto.
  - run_eff. eauto.
Qed.

End Embedding.

(** ** What a method leaves alone

    The combinators of the monad keep what their parts respect. *)

Section Frame.
Context (P : relation world) `{!PreOrder P}.

Lemma respects_ret {A} (a : A) : respects P (mret a).
Proof. intros w. simpl. reflexivity. Qed.

Lemma respects_lift {A} (r : res A) : respects P (lift r).
Proof. intros w. simpl. reflexivity. Qed.

Lemma respects_raise {A} (e : exn) : respects P (raise (A:=A) e).
Proof. intros w. simpl. reflexivity. Qed.

Lemma respects_bind {A B} (m : M A) (k : A -> M B) :
  respects P m -> (∀ a, respects P (k a)) -> respects P (m ≫= k).
Proof.
  intros Hm Hk w. specialize (Hm w).
  unfold mbind, M_bind, bind. destruct (m w) as [[a|e] w1]; simpl in *.
  - etrans; [exact Hm|]. apply Hk.
  - exact Hm.
Qed.

Lemma respects_try_request {A} (body : M A) (handler : pystr -> M A) :
  respects P body -> (∀ e, respects P (handler e)) ->
  respects P (try_request body handler).
Proof.
  intros Hb Hh w. specialize (Hb w). unfold try_request.
  destruct (body w) as [[a|[]] w1]; simpl in *; try exact Hb.
  etrans; [exact Hb|]. apply Hh.
Qed.

Lemma respects_try_json {A} (body handler : M A) :
  respects P body -> respects P handler ->
  respects P (try_json body handler).
Proof.
  intros Hb Hh w. specialize (Hb w). unfold try_json.
  destruct (body w) as [[a|[]] w1]; simpl in *; try exact Hb.
  etrans; [exact Hb|]. apply Hh.
Qed.

Lemma respects_response_json `{Runtime} (r : response) :
  respects P (response_json r).
Proof.
  unfold response_json. destruct (json_loads (text r));
    [apply respects_ret|].
  destruct (json_fails (text r)); apply respects_raise.
Qed.

Lemma respects_raise_for_status (r : response) :
  respects P (raise_for_status r).
Proof.
  unfold raise_for_status. destruct (http_error_msg r);
    [apply respects_raise|apply respects_ret].
Qed.

Lemma respects_loads `{Runtime} (s : pystr) : respects P (loads s).
Proof.
  unfold loads. destruct (json_loads s);
    [apply respects_ret|apply respects_raise].
Qed.

Lemma respects_decode (bs : bytes) : respects P (decode bs).
Proof.
  unfold decode. destruct (decode_utf8 bs);
    [apply respects_ret|apply respects_raise].
Qed.

Lemma respects_comprehension (f : value -> M value) (xs : list value) :
  (∀ x, respects P (f x)) -> respects P (comprehension f xs).
Proof.
  intros Hf. induction xs as [|x xs IH]; simpl; [apply respects_ret|].
  apply respects_bind; [apply Hf|]. intros y.
  apply respects_bind; [apply IH|]. intros ys. apply respects_ret.
Qed.

End Frame.

(** Breaking a computation down to its primitive steps. *)
Ltac respects_step :=
  lazymatch goal with
  | |- respects _ (mret _) => eapply respects_ret; typeclasses eauto
  | |- respects _ (lift _) => eapply respects_lift; typeclasses eauto
  | |- respects _ (raise _) => eapply respects_raise; typeclasses eauto
  | |- respects _ (response_json _) =>
      eapply respects_response_json; typeclasses eauto
  | |- respects _ (raise_for_status _) =>
      eapply respects_raise_for_status; typeclasses eauto
  | |- respects _ (loads _) => eapply respects_loads; typeclasses eauto
  | |- respects _ (decode _) => eapply respects_decode; typeclasses eauto
  | |- respects _ (comprehension _ _) =>
      eapply respects_comprehension; [typeclasses eauto|intros ?]
  | |- respects _ (_ ≫= _) =>
      eapply respects_bind; [typeclasses eauto| |intros ?]
  | |- respects _ (try_request _ _) =>
      eapply respects_try_request; [typeclasses eauto| |intros ?]
  | |- respects _ (try_json _ _) =>
      eapply respects_try_json; [typeclasses eauto| |]
  | |- respects _ (match ?x with _ => _ end) => destruct x
  end.

#[local] Instance same_sent_preorder : PreOrder same_sent.
Proof.
  split; [by intros w|]. intros w1 w2 w3 H12 H23.
  unfold same_sent in *. congruence.
Qed.

#[local] Instance same_objects_preorder : PreOrder same_objects.
Proof.
  split; [intros w; unfold same_objects; reflexivity|].
  intros w1 w2 w3 H12 H23. unfold same_objects in *. by etrans.
Qed.

Section Primitives.
Context `{Runtime}.

Lemma same_sent_print (line : pystr) : respects same_sent (print line).
Proof. by intros w. Qed.

Lemma same_sent_yield (v : value) : respects same_sent (yield v).
Proof. by intros w. Qed.

Lemma same_sent_alloc (l : list value) : respects same_sent (alloc_list l).
Proof. by intros w. Qed.

Lemma same_sent_read (r : loc) : respects same_sent (read_list r).
Proof. by intros w. Qed.

Lemma same_sent_append (r : loc) (v : value) :
  respects same_sent (append_list r v).
Proof. by intros w. Qed.

Lemma same_objects_print (line : pystr) : respects same_objects (print line).
Proof. intros w. unfold same_objects. reflexivity. Qed.

Lemma same_objects_yield (v : value) : respects same_objects (yield v).
Proof. intros w. unfold same_objects. reflexivity. Qed.

Lemma same_objects_read (r : loc) : respects same_objects (read_list r).
Proof. intros w. unfold same_objects. reflexivity. Qed.

Lemma same_objects_send (req : request) : respects same_objects (send req).
Proof.
  intros w. unfold same_objects, send.
  destruct (server req); reflexivity.
Qed.

(** A new object takes a reference that no object has. *)
Lemma same_objects_alloc (l : list value) :
  respects same_objects (alloc_list l).
Proof.
  intros w. unfold same_objects. simpl.
  apply insert_subseteq, not_elem_of_dom, is_fresh.
Qed.

End Primitives.

Ltac same_sent :=
  repeat first
    [ apply same_sent_print | apply same_sent_yield | apply same_sent_alloc
    | apply same_sent_read | apply same_sent_append
    | respects_step ].

Ltac same_objects :=
  repeat first
    [ apply same_objects_print | apply same_objects_yield
    | apply same_objects_read | apply same_objects_send
    | apply same_objects_alloc
    | respects_step ].

(** ** Running the first steps of a method *)

Section Steps.
Context `{Runtime}.

Lemma bind_ok {A B} (m : M A) (k : A -> M B) (w w' : world) (a : A) :
  m w = (Ok a, w') -> (m ≫= k) w = k a w'.
Proof. intros Hm. unfold mbind, M_bind, bind. by rewrite Hm. Qed.

Lemma try_bind_ok {A B} (m : M A) (k : A -> M B) (handler : pystr -> M B)
    (w w' : world) (a : A) :
  m w = (Ok a, w') ->
  try_request (m ≫= k) handler w = try_request (k a) handler w'.
Proof. intros Hm. unfold try_request. by rewrite (bind_ok _ _ _ _ _ Hm). Qed.

Lemma try_json_bind_ok {A B} (m : M A) (k : A -> M B) (handler : M B)
    (w w' : world) (a : A) :
  m w = (Ok a, w') -> try_json (m ≫= k) handler w = try_json (k a) handler w'.
Proof. intros Hm. unfold try_json. by rewrite (bind_ok _ _ _ _ _ Hm). Qed.

(** After [send] no step of a method sends again, so the request of
    [send] is the one request the call adds to the record. *)
Lemma sent_after_send {A} (req : request) (k : response -> M A)
    (handler : pystr -> M A) (w : world) :
  (∀ r, respects same_sent (k r)) ->
  (∀ e, respects same_sent (handler e)) ->
  sent (try_request (send req ≫= k) handler w).2 = sent w ++ [req].
Proof.
  intros Hk Hh. unfold try_request, mbind, M_bind, bind, send.
  destruct (server req) as [kind msg|r]; simpl.
  - apply Hh.
  - set (w1 := World _ _ _ _). specialize (Hk r w1).
    destruct (k r w1) as [[a|[]] w2]; simpl in *; try exact Hk.
    rewrite (Hh msg w2). exact Hk.
Qed.

(** The loop over the images leaves the content list with one part more
    for each image, in the order of the images. *)
Lemma append_images_run `{Imaging} (content : loc) (images : list image)
    (l : list value) (w : world) :
  heap w !! content = Some l ->
  Rag.append_images content images w
  = (Ok tt, World (<[content := l ++ map Rag.image_part images]> (heap w))
              (sent w) (stdout w) (yielded w)).
Proof.
  revert l w. induction images as [|img rest IH]; intros l w Hl; simpl.
  - rewrite app_nil_r, (insert_id _ _ _ Hl). by destruct w.
  - erewrite bind_ok; [|reflexivity]. simpl.
    rewrite (IH (l ++ [Rag.image_part img])); simpl.
    + rewrite insert_insert_eq, <- app_assoc. done.
    + rewrite (lookup_total_correct _ _ _ Hl). apply lookup_insert_eq.
Qed.

End Steps.

(** ** The request of [generate_completion] *)

Section Completion.
Context `{Runtime} `{Imaging}.

(** C3. [generate_completion] sends one request.  With at least one image
    it goes to [/v1/chat/completions] and carries a single user message
    whose content is the text part with the prompt followed by one
    [image_url] part for each image, in order, each a
    [data:image/png;base64,] URI.  With no image ([None] or the empty list)
    it goes to [/v1/completions] and carries the prompt string. *)
Theorem generate_completion_endpoint (self : Rag.VLLMClient)
    (model prompt : pystr) (images : option (list image)) (w : world) :
  ∃ req,
    sent (Rag.generate_completion self model prompt images w).2
    = sent w ++ [req]
    ∧ req_method req = POST
    ∧ match images with
      | Some (img :: rest) =>
          req_url req = Rag.host self ++ str "/v1/chat/completions"
          ∧ req_json req
            = Some (VDict
                [(str "model", VStr model);
                 (str "messages",
                  VList [VDict
                    [(str "role", VStr (str "user"));
                     (str "content",
                      VList (VDict [(str "type", VStr (str "text"));
                                    (str "text", VStr prompt)]
                             :: map png_part (img :: rest)))]]);
                 (str "stream", VBool false);
                 (str "max_tokens", VInt 1024);
                 (str "temperature", VFloat 0x1.6666666666666p-1)])
      | _ =>
          req_url req = Rag.host self ++ str "/v1/completions"
          ∧ req_json req
            = Some (VDict
                [(str "model", VStr model);
                 (str "prompt", VStr prompt);
                 (str "stream", VBool false);
                 (str "max_tokens", VInt 1024);
                 (str "temperature", VFloat 0x1.6666666666666p-1)])
      end.
Proof.
  unfold Rag.generate_completion.
  assert (Hhandler : ∀ e, respects same_sent
            (print (str "Error generating completion: " ++ e);;
             mret (VDict []))) by (intros; same_sent).
  destruct images as [[|img rest]|]; simpl Rag.some_images; cbv iota.
  - eexists. rewrite sent_after_send; [|intros; same_sent|done].
    split; [reflexivity|]. done.
  - erewrite try_bind_ok; [|reflexivity].
    erewrite try_bind_ok; [|apply append_images_run, lookup_insert_eq].
    erewrite try_bind_ok; [|reflexivity].
    eexists. rewrite sent_after_send; [|intros; same_sent|done].
    split; [reflexivity|]. simpl.
    rewrite insert_insert_eq, lookup_total_insert_eq. done.
  - eexists. rewrite sent_after_send; [|intros; same_sent|done].
    split; [reflexivity|]. done.
Qed.

End Completion.

(** ** The line loops of the streaming methods *)

Section Loops.
Context `{Runtime} (P : relation world) `{!PreOrder P}.
Hypothesis respects_yield : ∀ v, respects P (yield v).

Ltac loop_steps := repeat first [apply respects_yield | respects_step].

Lemma respects_chat_stream_line (enable_thinking : bool) (t : pystr) :
  respects P (Backend.chat_stream_line enable_thinking t).
Proof. unfold Backend.chat_stream_line. loop_steps. Qed.

Lemma respects_stream_line_chat (t : pystr) :
  respects P (Rag.stream_line_chat t).
Proof. unfold Rag.stream_line_chat. loop_steps. Qed.

Lemma respects_stream_line_text (t : pystr) :
  respects P (Rag.stream_line_text t).
Proof. unfold Rag.stream_line_text. loop_steps. Qed.

Lemma respects_chat_stream_lines (enable_thinking : bool)
    (lines : list bytes) (err : option (request_error * pystr)) :
  respects P (Backend.chat_stream_lines enable_thinking lines err).
Proof.
  induction lines as [|line rest IH]; simpl.
  - destruct err as [[k msg]|]; loop_steps.
  - case_bool_decide; [exact IH|].
    respects_step; [respects_step|].
    destruct (streq _ _); [respects_step|].
    respects_step; [apply respects_chat_stream_line|exact IH].
Qed.

Lemma respects_stream_lines (on_line : pystr -> M unit)
    (lines : list bytes) (err : option (request_error * pystr)) :
  (∀ t, respects P (on_line t)) ->
  respects P (Rag.stream_lines on_line lines err).
Proof.
  intros Hline. induction lines as [|line rest IH]; simpl.
  - destruct err as [[k msg]|]; loop_steps.
  - case_bool_decide; [exact IH|].
    respects_step; [respects_step|].
    destruct (streq _ _); [respects_step|].
    respects_step; [apply Hline|exact IH].
Qed.

End Loops.

(** ** What a generator yields *)

#[local] Instance yields_only_preorder (Q : value -> Prop) :
  PreOrder (yields_only Q).
Proof.
  split.
  - intros w. exists []. by rewrite app_nil_r.
  - intros w1 w2 w3 (n1 & Hy1 & Q1) (n2 & Hy2 & Q2). exists (n1 ++ n2).
    split; [by rewrite Hy2, Hy1, app_assoc|by apply Forall_app].
Qed.

Lemma yields_only_yield (Q : value -> Prop) (v : value) :
  Q v -> respects (yields_only Q) (yield v).
Proof. intros Hv w. exists [v]. split; [done|by constructor]. Qed.

Lemma yields_only_quiet {A} (Q : value -> Prop) (m : M A) :
  (∀ w, yielded (m w).2 = yielded w) -> respects (yields_only Q) m.
Proof. intros Hm w. exists []. by rewrite app_nil_r, Hm. Qed.

(** ** Timeouts *)

Section Timeouts.
Context `{Runtime} `{Imaging}.

(** C4, as the code has it.  [is_server_running] asks with a timeout of 5
    seconds and [chat] and [chat_stream] with 180 seconds; but the request
    of [list_models], of [generate_embedding], of [generate_completion] and
    of [stream_completion] carries no timeout at all: [requests] then waits
    for the server without limit. *)
Theorem requests_without_timeout (backend : Backend.VLLMClient)
    (rag : Rag.VLLMClient) (model text prompt : pystr)
    (images : option (list image)) (w : world) :
  ∃ listing embedding completion streaming,
    sent (Backend.list_models backend w).2 = sent w ++ [listing]
    ∧ req_timeout listing = None
    ∧ sent (Rag.generate_embedding rag model text w).2
      = sent w ++ [embedding]
    ∧ req_timeout embedding = None
    ∧ sent (Rag.generate_completion rag model prompt images w).2
      = sent w ++ [completion]
    ∧ req_timeout completion = None
    ∧ sent (Rag.stream_completion rag model prompt images w).2
      = sent w ++ [streaming]
    ∧ req_timeout streaming = None.
Proof.
  assert (Hstream : ∀ on_line lines err,
            (∀ t, respects same_sent (on_line t)) ->
            respects same_sent (Rag.stream_lines on_line lines err))
    by (intros; by apply (respects_stream_lines same_sent)).
  assert (Hchat : ∀ t, respects same_sent (Rag.stream_line_chat t))
    by (intros; apply (respects_stream_line_chat same_sent same_sent_yield)).
  assert (Htext : ∀ t, respects same_sent (Rag.stream_line_text t))
    by (intros; apply (respects_stream_line_text same_sent same_sent_yield)).
  unfold Backend.list_models, Rag.generate_embedding,
    Rag.generate_completion, Rag.stream_completion.
  destruct images as [[|img rest]|]; simpl Rag.some_images; cbv iota zeta;
    repeat first
      [ rewrite sent_after_send by (intros; same_sent; auto)
      | erewrite try_bind_ok;
        [|first [apply append_images_run, lookup_insert_eq|reflexivity]] ];
    do 4 eexists; repeat (split; [reflexivity|]); reflexivity.
Qed.

End Timeouts.

(** ** The caller's history *)

Section History.
Context `{Runtime}.

Lemma chat_same_objects self message model history enable_thinking :
  respects same_objects
    (Backend.chat self message model history enable_thinking).
Proof. unfold Backend.chat. same_objects. Qed.

Lemma chat_stream_same_objects self message model history enable_thinking :
  respects same_objects
    (Backend.chat_stream self message model history enable_thinking).
Proof.
  unfold Backend.chat_stream. same_objects.
  apply (respects_chat_stream_lines same_objects same_objects_yield).
Qed.

Lemma chat_sent self message model history enable_thinking w :
  sent (Backend.chat self message model history enable_thinking w).2
  = sent w ++ [chat_request self model
                 (history_of w history ++ [Backend.user_message message])
                 false].
Proof.
  unfold Backend.chat.
  destruct history as [r|];
    repeat (erewrite bind_ok; [|reflexivity]);
    repeat (erewrite try_bind_ok; [|reflexivity]); simpl heap;
    rewrite !lookup_total_insert_eq;
    rewrite sent_after_send; try done; intros; same_sent.
Qed.

Lemma chat_stream_sent self message model history enable_thinking w :
  sent (Backend.chat_stream self message model history enable_thinking w).2
  = sent w ++ [chat_request self model
                 (history_of w history ++ [Backend.user_message message])
                 true].
Proof.
  unfold Backend.chat_stream.
  destruct history as [r|];
    repeat (erewrite bind_ok; [|reflexivity]);
    repeat (erewrite try_bind_ok; [|reflexivity]); simpl heap;
    rewrite !lookup_total_insert_eq;
    rewrite sent_after_send; try done; intros; same_sent;
    apply (respects_chat_stream_lines same_sent same_sent_yield).
Qed.

(** C10. [chat] and [chat_stream] leave the caller's history list as it
    was: the messages they send are the elements of the history followed by
    the new user message, built as a list of their own, and a second call
    with the same list object sends the same messages again. *)
Theorem history_list_unchanged (self : Backend.VLLMClient)
    (message model : pystr) (history : loc) (enable_thinking : bool)
    (w : world) (contents : list value) :
  heap w !! history = Some contents ->
  let messages := contents ++ [Backend.user_message message] in
  (let w1 :=
     (Backend.chat self message model (Some history) enable_thinking w).2 in
   let w2 :=
     (Backend.chat self message model (Some history) enable_thinking w1).2 in
   heap w1 !! history = Some contents
   ∧ sent w1 = sent w ++ [chat_request self model messages false]
   ∧ sent w2 = sent w1 ++ [chat_request self model messages false])
  ∧
  (let w1 :=
     (Backend.chat_stream self message model (Some history)
        enable_thinking w).2 in
   let w2 :=
     (Backend.chat_stream self message model (Some history)
        enable_thinking w1).2 in
   heap w1 !! history = Some contents
   ∧ sent w1 = sent w ++ [chat_request self model messages true]
   ∧ sent w2 = sent w1 ++ [chat_request self model messages true]).
Proof.
  intros Hc messages. split.
  - pose proof (chat_same_objects self message model (Some history)
                  enable_thinking w) as Hframe.
    unfold same_objects in Hframe.
    pose proof (lookup_weaken _ _ _ _ Hc Hframe) as Hc1.
    split; [exact Hc1|].
    rewrite !chat_sent. simpl.
    by rewrite (lookup_total_correct _ _ _ Hc1),
      (lookup_total_correct _ _ _ Hc).
  - pose proof (chat_stream_same_objects self message model (Some history)
                  enable_thinking w) as Hframe.
    unfold same_objects in Hframe.
    pose proof (lookup_weaken _ _ _ _ Hc Hframe) as Hc1.
    split; [exact Hc1|].
    rewrite !chat_stream_sent. simpl.
    by rewrite (lookup_total_correct _ _ _ Hc1),
      (lookup_total_correct _ _ _ Hc).
Qed.

End History.

(** ** A response without [choices] *)

Section Malformed.
Context `{Runtime} `{Imaging}.

(** C1, as the code has it.  When the server answers every request with a
    status 200 whose body is a JSON object without the key [choices], the
    subscript [result["choices"]] raises [KeyError]; the only handler around
    it is for [RequestException], so [chat] and [generate_completion] let
    the exception out to the caller instead of returning an error text or
    an empty record. *)
Theorem missing_choices_raises (backend : Backend.VLLMClient)
    (rag : Rag.VLLMClient) (message model prompt : pystr)
    (history : option loc) (enable_thinking : bool)
    (images : option (list image)) (w : world)
    (r : response) (d : list (pystr * value)) :
  (∀ req, server req = NetResp r) ->
  status_code r = 200%Z ->
  json_loads (text r) = Some (VDict d) ->
  dict_lookup d (str "choices") = None ->
  (Backend.chat backend message model history enable_thinking w).1
  = Raise KeyError
  ∧ (Rag.generate_completion rag model prompt images w).1 = Raise KeyError.
Proof.
  intros Hserver Hst Hjs Hd.
  assert (H2xx : http_error_msg r = None)
    by (apply http_error_msg_2xx; lia).
  split.
  - unfold Backend.chat.
    destruct history as [h|];
      repeat (erewrite bind_ok; [|reflexivity]);
      repeat (erewrite try_bind_ok; [|reflexivity]);
      unfold try_request, mbind, M_bind, bind, send, response_json;
      rewrite Hserver, Hst; simpl; rewrite Hjs; simpl; by rewrite Hd.
  - unfold Rag.generate_completion.
    destruct images as [[|img rest]|]; simpl Rag.some_images; cbv iota zeta;
      repeat (erewrite try_bind_ok;
              [|first [apply append_images_run, lookup_insert_eq
                      |reflexivity]]);
      unfold try_request, mbind, M_bind, bind, send, response_json,
        raise_for_status;
      rewrite Hserver, H2xx; simpl; rewrite Hjs; simpl; by rewrite Hd.
Qed.

End Malformed.

(** ** Server-sent events *)

Section Skipping.
Context `{Runtime}.






End Skipping.

Section SkippingOperations.
Context {R : Runtime} {I : Imaging}.

(** The line loops take [json.loads] and [str.lower] from the runtime, not
    the server. *)
Lemma chat_stream_lines_runtime (R1 R2 : Runtime)
    (enable_thinking : bool) (lines : list bytes)
    (err : option (request_error * pystr)) :
  @json_loads R1 = @json_loads R2 ->
  @json_fails R1 = @json_fails R2 ->
  @str_lower R1 = @str_lower R2 ->
  @Backend.chat_stream_lines R1 enable_thinking lines err
  = @Backend.chat_stream_lines R2 enable_thinking lines err.
Proof.
  destruct R1 as [j1 f1 l1 s1 g1], R2 as [j2 f2 l2 s2 g2]; simpl.
  intros -> -> ->.
  induction lines as [|line rest IH]; simpl; [done|].
  case_bool_decide; [exact IH|]. by rewrite IH.
Qed.

Lemma stream_lines_runtime (R1 R2 : Runtime) (lines : list bytes)
    (err : option (request_error * pystr)) :
  @json_loads R1 = @json_loads R2 ->
  @json_fails R1 = @json_fails R2 ->
  @Rag.stream_lines (@Rag.stream_line_chat R1) lines err
  = @Rag.stream_lines (@Rag.stream_line_chat R2) lines err
  ∧ @Rag.stream_lines (@Rag.stream_line_text R1) lines err
    = @Rag.stream_lines (@Rag.stream_line_text R2) lines err.
Proof.
  destruct R1 as [j1 f1 l1 s1 g1], R2 as [j2 f2 l2 s2 g2]; simpl.
  by intros -> ->.
Qed.

Lemma malformed_with_server (s : request -> net_result) (line : bytes) :
  malformed line -> @malformed (with_server R s) line.
Proof. done. Qed.

End SkippingOperations.

(** ** One event and the end marker *)

Section HiDone.
Context {R : Runtime}.

(** One turn of the loop of [chat_stream]: an event line is handed to the
    body of the loop, the end marker ends the loop. *)
Lemma chat_stream_lines_event (enable_thinking : bool) (line : bytes)
    (rest : list bytes) (err : option (request_error * pystr)) (t : pystr)
    (w : world) :
  line ≠ [] ->
  decode_utf8 line = Some t ->
  strip (sse_payload t) ≠ str "[DONE]" ->
  Backend.chat_stream_lines enable_thinking (line :: rest) err w
  = (Backend.chat_stream_line enable_thinking (sse_payload t);;
     Backend.chat_stream_lines enable_thinking rest err) w.
Proof.
  intros Hne Ht Hdone. simpl.
  rewrite bool_decide_eq_false_2 by done.
  erewrite bind_ok; [|unfold decode; by rewrite Ht].
  fold (sse_payload t). unfold streq.
  by rewrite bool_decide_eq_false_2 by done.
Qed.

Lemma chat_stream_lines_done (enable_thinking : bool) (line : bytes)
    (rest : list bytes) (err : option (request_error * pystr)) (t : pystr)
    (w : world) :
  line ≠ [] ->
  decode_utf8 line = Some t ->
  strip (sse_payload t) = str "[DONE]" ->
  Backend.chat_stream_lines enable_thinking (line :: rest) err w = (Ok tt, w).
Proof.
  intros Hne Ht Hdone. simpl.
  rewrite bool_decide_eq_false_2 by done.
  erewrite bind_ok; [|unfold decode; by rewrite Ht].
  fold (sse_payload t). unfold streq.
  by rewrite bool_decide_eq_true_2 by done.
Qed.

(** The body of the loop on an event that carries a fragment: the
    fragment is yielded, unless thinking is off and its lower case holds an
    opening thinking tag. *)
Lemma chat_stream_line_fragment (enable_thinking : bool) (t c : pystr)
    (d choice delta : list (pystr * value)) (others : list value)
    (w : world) :
  json_loads t = Some (VDict d) ->
  dict_lookup d (str "choices") = Some (VList (VDict choice :: others)) ->
  dict_lookup choice (str "delta") = Some (VDict delta) ->
  dict_lookup delta (str "content") = Some (VStr c) ->
  c ≠ [] ->
  (enable_thinking = false ->
   contains (str_lower c) (str "<think>") = false
   ∧ contains (str_lower c) (str "<thinking>") = false) ->
  Backend.chat_stream_line enable_thinking t w = yield (VStr c) w.
Proof.
  intros Hjs Hchoices Hdelta Hcontent Hc Htags.
  unfold Backend.chat_stream_line.
  erewrite try_json_bind_ok; [|unfold loads; by rewrite Hjs].
  unfold try_json, mbind, M_bind, bind, lift, contains_str, getitem_key.
  rewrite Hchoices. simpl. rewrite Hdelta. simpl. rewrite Hcontent. simpl.
  rewrite bool_decide_eq_false_2 by done. simpl.
  destruct enable_thinking; simpl; [done|].
  destruct Htags as [-> ->]; done.
Qed.

Lemma hi_event_fragment (enable_thinking : bool) (w : world) :
  json_loads (map Byte.to_N hi_event) = Some hi_value ->
  str_lower (str "Hi") = str "hi" ->
  Backend.chat_stream_line enable_thinking (map Byte.to_N hi_event) w
  = yield (VStr (str "Hi")) w.
Proof.
  intros Hjs Hlower.
  eapply chat_stream_line_fragment; [exact Hjs|reflexivity..|done|].
  intros _. rewrite Hlower. by vm_compute.
Qed.

Lemma hi_done_lines (enable_thinking : bool) (rest : list bytes)
    (err : option (request_error * pystr)) (w : world) :
  json_loads (map Byte.to_N hi_event) = Some hi_value ->
  str_lower (str "Hi") = str "hi" ->
  Backend.chat_stream_lines enable_thinking (hi_line :: done_line :: rest)
    err w
  = (Ok tt, World (heap w) (sent w) (stdout w)
              (yielded w ++ [VStr (str "Hi")])).
Proof.
  intros Hjs Hlower.
  rewrite (chat_stream_lines_event _ _ _ _ (map Byte.to_N hi_line))
    by (by vm_compute).
  change (sse_payload (map Byte.to_N hi_line)) with (map Byte.to_N hi_event).
  erewrite bind_ok; [|by apply hi_event_fragment].
  by rewrite (chat_stream_lines_done _ _ _ _ (map Byte.to_N done_line))
    by (by vm_compute).
Qed.

(** C5. For a response with status 200 whose lines are the event
    [data: {"choices":[{"delta":{"content":"Hi"}}]}] and then [data: [DONE]],
    [chat_stream] yields the one fragment ["Hi"] and ends; whatever the
    response holds behind the end marker is not read. *)
Theorem chat_stream_hi_then_done (self : Backend.VLLMClient)
    (message model : pystr) (history : option loc) (enable_thinking : bool)
    (w : world) (r : response) (rest : list bytes) :
  json_loads (map Byte.to_N hi_event) = Some hi_value ->
  str_lower (str "Hi") = str "hi" ->
  server (chat_request self model
            (history_of w history ++ [Backend.user_message message]) true)
  = NetResp r ->
  status_code r = 200%Z ->
  body_lines r = hi_line :: done_line :: rest ->
  ∃ w',
    Backend.chat_stream self message model history enable_thinking w
    = (Ok tt, w')
    ∧ yielded w' = yielded w ++ [VStr (str "Hi")].
Proof.
  intros Hjs Hlower Hserver Hst Hlines.
  unfold Backend.chat_stream, chat_request in *.
  destruct history as [h|]; simpl in Hserver;
    repeat (erewrite bind_ok; [|reflexivity]);
    repeat (erewrite try_bind_ok; [|reflexivity]);
    unfold try_request, mbind at 1, M_bind, bind at 1, send; simpl heap;
    rewrite ?lookup_total_insert_eq; cbn [app];
    rewrite Hserver, Hst, Hlines; cbv iota;
    change (200 =? 200)%Z with true; cbv iota;
    rewrite (hi_done_lines _ _ _ _ Hjs Hlower); eexists; split; done.
Qed.

End HiDone.

(** ** A line that does not parse, and the lines behind it *)

Section GoingOn.
Context `{Runtime}.







End GoingOn.

Section SkippedAndOn.
Context {R : Runtime} {I : Imaging}.


End SkippedAndOn.

(** ** Removing the thinking spans *)

Section Regex.

Lemma is_tag_length (t u : pystr) : is_tag t u -> length u = length t.
Proof. intros Hu. symmetry. by eapply Forall2_length. Qed.

Lemma tag_here_spec (t s : pystr) :
  tag_here t s = true ↔ ∃ u rest, s = u ++ rest ∧ is_tag t u.
Proof.
  revert s. induction t as [|c t IH]; intros s; simpl.
  - split; [|done]. intros _. exists [], s. split; [done|constructor].
  - destruct s as [|d s].
    + split; [done|]. intros (u & rest & Hs & Hu).
      inversion Hu; subst. discriminate.
    + rewrite andb_true_iff, IH. split.
      * intros (Hcd & u & rest & -> & Hu).
        exists (d :: u), rest. split; [done|by constructor].
      * intros (u & rest & Hs & Hu). inversion Hu as [|? d' ? u' Hcd Hu']; subst.
        injection Hs as <- ->. eauto.
Qed.

Lemma tag_here_app (t u rest : pystr) : is_tag t u -> tag_here t (u ++ rest) = true.
Proof. intros Hu. apply tag_here_spec. eauto. Qed.

(** The literals of a pattern match the characters of the tag, one by one. *)
Lemma match_here_lits (t : pystr) (p : list Re.item) (s : pystr) :
  Re.match_here (map Re.Lit t ++ p) s
  = if tag_here t s
    then (fun n => length t + n)%nat <$> Re.match_here p (drop (length t) s)
    else None.
Proof.
  revert s. induction t as [|c t IH]; intros s; simpl.
  - rewrite drop_0. by destruct (Re.match_here p s).
  - destruct s as [|d s]; [done|].
    destruct (Re.lit_matches c d); [|done]. simpl.
    rewrite IH. destruct (tag_here t s); [|done].
    by destruct (Re.match_here p (drop (length t) s)).
Qed.

Lemma match_here_tag (t s : pystr) :
  Re.match_here (map Re.Lit t) s
  = if tag_here t s then Some (length t) else None.
Proof.
  rewrite <- (app_nil_r (map Re.Lit t)), match_here_lits. simpl.
  by rewrite Nat.add_0_r.
Qed.

(** [.*?] followed by the closing tag finds the first closing tag. *)
Lemma match_here_lazy (close s : pystr) :
  Re.match_here (Re.AnyLazy :: map Re.Lit close) s = find_close close s.
Proof.
  induction s as [|d s IH]; simpl.
  - rewrite match_here_tag. by destruct (tag_here close []).
  - rewrite match_here_tag. destruct (tag_here close (d :: s)); [done|].
    simpl in IH. by rewrite IH.
Qed.


Lemma find_close_Some (close s : pystr) (n : nat) :
  find_close close s = Some n ->
  ∃ body c rest,
    s = body ++ c ++ rest ∧ is_tag close c
    ∧ n = (length body + length close)%nat
    ∧ first_close close body c rest.
Proof.
  revert n. induction s as [|d s IH]; intros n; simpl.
  - destruct (tag_here close []) eqn:Htag; [|done]. intros [= <-].
    apply tag_here_spec in Htag as (c & rest & Hs & Hc).
    exists [], c, rest. repeat split; [done..|]. intros ?; simpl; lia.
  - destruct (tag_here close (d :: s)) eqn:Htag.
    + intros [= <-]. apply tag_here_spec in Htag as (c & rest & Hs & Hc).
      exists [], c, rest. repeat split; [done..|]. intros ?; simpl; lia.
    + destruct (find_close close s) as [m|] eqn:Hm; [|done].
      intros [= <-]. destruct (IH _ eq_refl) as (body & c & rest & -> & Hc & -> & Hmin).
      exists (d :: body), c, rest. repeat split; [done..|].
      intros body' c' rest' Heq Hc'. destruct body' as [|d' body'].
      * simpl in Heq. rewrite Heq, (tag_here_app _ _ _ Hc') in Htag. done.
      * injection Heq as -> Heq. simpl. apply le_n_S. by eapply Hmin.
Qed.

Lemma find_close_None (close s body c rest : pystr) :
  find_close close s = None -> s = body ++ c ++ rest -> ¬ is_tag close c.
Proof.
  intros Hnone Hs Hc. revert s Hnone Hs.
  induction body as [|d body IH]; intros s Hnone ->.
  - destruct (c ++ rest) eqn:E; simpl in Hnone; rewrite <- ?E in Hnone;
      by rewrite (tag_here_app _ _ _ Hc) in Hnone.
  - simpl in Hnone. destruct (tag_here close _); [done|].
    destruct (find_close close (body ++ c ++ rest)) eqn:E; [done|].
    by eapply IH.
Qed.

Lemma match_here_span_re (open close s : pystr) :
  Re.match_here (span_re open close) s
  = if tag_here open s
    then (fun n => length open + n)%nat
           <$> find_close close (drop (length open) s)
    else None.
Proof. unfold span_re. by rewrite match_here_lits, match_here_lazy. Qed.

(** A match is a span with its first closing tag. *)
Lemma match_is_span (open close s : pystr) (n : nat) :
  Re.match_here (span_re open close) s = Some n ->
  ∃ o body c rest,
    s = o ++ body ++ c ++ rest ∧ is_tag open o ∧ is_tag close c
    ∧ first_close close body c rest
    ∧ n = length (o ++ body ++ c).
Proof.
  rewrite match_here_span_re.
  destruct (tag_here open s) eqn:Htag; [|done].
  apply tag_here_spec in Htag as (o & tail & -> & Ho).
  rewrite drop_app_length' by (by rewrite (is_tag_length _ _ Ho)).
  destruct (find_close close tail) as [m|] eqn:Hm; [|done]. intros [= <-].
  apply find_close_Some in Hm as (body & c & rest & -> & Hc & -> & Hmin).
  exists o, body, c, rest. repeat split; [done..|].
  rewrite !length_app, (is_tag_length _ _ Ho), (is_tag_length _ _ Hc). lia.
Qed.

(** Where the pattern does not match, no span starts. *)
Lemma no_match_no_span (open close s : pystr) :
  Re.match_here (span_re open close) s = None -> ¬ span_at open close s.
Proof.
  rewrite match_here_span_re. intros Hnone (o & body & c & rest & -> & Ho & Hc).
  rewrite (tag_here_app _ _ _ Ho) in Hnone.
  rewrite drop_app_length' in Hnone by (by rewrite (is_tag_length _ _ Ho)).
  destruct (find_close close (body ++ c ++ rest)) eqn:E; [done|].
  by eapply find_close_None.
Qed.

(** [re.sub] with the pattern [open.*?close] removes the spans. *)
Lemma sub_go_removes (open close : pystr) (fuel : nat) (s : pystr) :
  open ≠ [] ->
  (length s <= fuel)%nat ->
  spans_removed open close s (Re.sub_go (span_re open close) fuel s).
Proof.
  intros Hopen. revert s. induction fuel as [|fuel IH]; intros s Hlen.
  - destruct s; [constructor|simpl in Hlen; lia].
  - destruct s as [|ch s]; [constructor|]. simpl in Hlen. 
    cbn [Re.sub_go].
    destruct (Re.match_here (span_re open close) (ch :: s)) as [[|n]|] eqn:Hm.
    + apply match_is_span in Hm as (o & body & c & rest & _ & Ho & _ & _ & Hn).
      apply is_tag_length in Ho. rewrite !length_app in Hn.
      destruct open; [done|]. simpl in Ho. lia.
    + pose proof Hm as (o & body & c & rest & Hs & Ho & Hc & Hmin & Hn)%match_is_span.
      assert (drop n s = rest) as ->.
      { change (drop n s) with (drop (S n) (ch :: s)).
        rewrite Hs, Hn.
        replace (o ++ body ++ c ++ rest) with ((o ++ body ++ c) ++ rest)
          by (by rewrite <- !app_assoc).
        by rewrite drop_app_length. }
      rewrite Hs. apply removed_span; [done..|]. apply IH.
      apply (f_equal length) in Hs. rewrite !length_app in Hs, Hn.
      simpl in Hs. rewrite length_app in Hs. lia.
    + apply removed_keep; [by apply no_match_no_span|]. apply IH. lia.
Qed.

End Regex.

Section Trimming.

Lemma lstrip_spec (s : pystr) :
  ∃ pre,
    s = pre ++ lstrip s
    ∧ Forall (fun c => isspace c = true) pre
    ∧ (∀ c, head (lstrip s) = Some c -> isspace c = false).
Proof.
  induction s as [|d s (pre & Hs & Hpre & Hhead)]; simpl.
  - exists []. by repeat split.
  - destruct (isspace d) eqn:Hd.
    + exists (d :: pre). split; [by rewrite Hs at 1|]. split; [by constructor|done].
    + exists []. repeat split; [constructor|]. by intros c [= <-].
Qed.

Lemma rstrip_spec (s : pystr) :
  ∃ post,
    s = rstrip s ++ post
    ∧ Forall (fun c => isspace c = true) post
    ∧ (∀ c, last (rstrip s) = Some c -> isspace c = false).
Proof.
  destruct (lstrip_spec (reverse s)) as (pre & Hs & Hpre & Hhead).
  exists (reverse pre). unfold rstrip. split.
  - by rewrite <- reverse_app, <- Hs, reverse_involutive.
  - split; [by apply Forall_reverse|]. intros c. rewrite last_reverse. apply Hhead.
Qed.

(** [str.strip] removes the white space around a text, and only that. *)
Lemma strip_trimmed (s : pystr) : trimmed s (strip s).
Proof.
  destruct (lstrip_spec s) as (pre & Hs & Hpre & Hhead).
  destruct (rstrip_spec (lstrip s)) as (post & Hl & Hpost & Hlast).
  exists pre, post. fold (strip s) in Hl, Hlast.
  split; [by rewrite <- Hl|]. split; [done|]. split; [done|].
  split; [|done].
  intros c Hc. apply Hhead. rewrite Hl. apply head_app_Some. by left.
Qed.

End Trimming.

Section Functional.
Context (open close : pystr) (Hopen : open ≠ []).

Lemma span_parts (o body c rest o' body' c' rest' : pystr) :
  is_tag open o -> is_tag close c -> first_close close body c rest ->
  is_tag open o' -> is_tag close c' -> first_close close body' c' rest' ->
  o ++ body ++ c ++ rest = o' ++ body' ++ c' ++ rest' ->
  rest = rest'.
Proof.
  intros Ho Hc Hmin Ho' Hc' Hmin' Heq.
  apply app_inj_1 in Heq as [-> Heq];
    [|by rewrite (is_tag_length _ _ Ho), (is_tag_length _ _ Ho')].
  assert (length body = length body') as Hlen.
  { apply Nat.le_antisymm; [by eapply Hmin|by eapply Hmin']. }
  apply app_inj_1 in Heq as [-> Heq]; [|done].
  apply app_inj_1 in Heq as [-> Heq]; [done|].
  by rewrite (is_tag_length _ _ Hc), (is_tag_length _ _ Hc').
Qed.

(** The text fixes what is left of it. *)
Lemma spans_removed_functional (s out1 out2 : pystr) :
  spans_removed open close s out1 ->
  spans_removed open close s out2 ->
  out1 = out2.
Proof.
  intros H1. revert out2.
  induction H1 as [|o body c rest out Ho Hc Hmin _ IH|ch s out Hno _ IH];
    intros out2 H2.
  - inversion H2 as [|o' body' c' rest' ? Ho' ? ? ? Heq|]; [done|].
    apply is_tag_length in Ho'. destruct o'; [by destruct open|done].
  - inversion H2 as [Heq|o' body' c' rest' ? Ho' Hc' Hmin' Hrest Heq
                    |ch s' out' Hno Hrest Heq]; subst.
    + apply is_tag_length in Ho. destruct o; [by destruct open|done].
    + apply IH. by rewrite (span_parts _ _ _ _ _ _ _ _ Ho Hc Hmin Ho' Hc' Hmin' (eq_sym Heq)).
    + destruct Hno. rewrite Heq. by exists o, body, c, rest.
  - inversion H2 as [|o' body' c' rest' ? Ho' Hc' Hmin' Hrest Heq
                    |ch' s' out' Hno' Hrest]; subst.
    + destruct Hno. rewrite <- Heq. by exists o', body', c', rest'.
    + f_equal. by apply IH.
Qed.

End Functional.

(** ** The clean-up of [chat] *)

Section Thinking.
Context {R : Runtime}.

Lemma think_re_span :
  Re.think_re = span_re (str "<think>") (str "</think>").
Proof. reflexivity. Qed.

Lemma thinking_re_span :
  Re.thinking_re = span_re (str "<thinking>") (str "</thinking>").
Proof. reflexivity. Qed.

Lemma sub_removes (open close s : pystr) :
  open ≠ [] ->
  spans_removed open close s (Re.sub (span_re open close) s).
Proof. intros Hopen. by apply sub_go_removes. Qed.

(** What [chat] returns for a response with status 200 whose first choice
    carries the text [s]. *)
Lemma chat_content (self : Backend.VLLMClient) (message model : pystr)
    (history : option loc) (enable_thinking : bool) (w : world)
    (r : response) (d choice msg : list (pystr * value))
    (others : list value) (s : pystr) :
  server (chat_request self model
            (history_of w history ++ [Backend.user_message message]) false)
  = NetResp r ->
  status_code r = 200%Z ->
  json_loads (text r) = Some (VDict d) ->
  dict_lookup d (str "choices") = Some (VList (VDict choice :: others)) ->
  dict_lookup choice (str "message") = Some (VDict msg) ->
  dict_lookup msg (str "content") = Some (VStr s) ->
  (Backend.chat self message model history enable_thinking w).1
  = Ok (VStr (if enable_thinking then s
              else strip (Re.sub Re.thinking_re (Re.sub Re.think_re s)))).
Proof.
  intros Hserver Hst Hjs Hchoices Hmsg Hcontent.
  unfold Backend.chat, chat_request in *.
  destruct history as [h|]; simpl in Hserver;
    repeat (erewrite bind_ok; [|reflexivity]);
    repeat (erewrite try_bind_ok; [|reflexivity]);
    unfold try_request, mbind, M_bind, bind, send, response_json;
    simpl heap; rewrite ?lookup_total_insert_eq; cbn [app];
    rewrite Hserver, Hst; change (200 =? 200)%Z with true; cbv iota;
    rewrite Hjs; unfold lift, getitem_key; cbn [ret];
    rewrite Hchoices; cbn [getitem_idx index_of length]; simpl;
    rewrite Hmsg, Hcontent; by destruct enable_thinking.
Qed.

(** C2. For a successful [chat] call whose response carries the text [s]:
    with thinking enabled the text is returned as it is; with thinking
    disabled what is returned is [s] without its [<think>...</think>]
    spans, then without its [<thinking>...</thinking>] spans (tags
    compared without regard to case, a span running over line ends up to
    the first closing tag), then without the white space around it.  In
    particular [A<think>secret</think>B] gives [AB]. *)
Theorem chat_thinking_cleanup (self : Backend.VLLMClient)
    (message model : pystr) (history : option loc) (enable_thinking : bool)
    (w : world) (r : response) (d choice msg : list (pystr * value))
    (others : list value) (s : pystr) :
  server (chat_request self model
            (history_of w history ++ [Backend.user_message message]) false)
  = NetResp r ->
  status_code r = 200%Z ->
  json_loads (text r) = Some (VDict d) ->
  dict_lookup d (str "choices") = Some (VList (VDict choice :: others)) ->
  dict_lookup choice (str "message") = Some (VDict msg) ->
  dict_lookup msg (str "content") = Some (VStr s) ->
  ∃ out,
    (Backend.chat self message model history enable_thinking w).1
    = Ok (VStr out)
    ∧ (enable_thinking = true -> out = s)
    ∧ (enable_thinking = false ->
       ∃ s1 s2,
         spans_removed (str "<think>") (str "</think>") s s1
         ∧ spans_removed (str "<thinking>") (str "</thinking>") s1 s2
         ∧ trimmed s2 out)
    ∧ (enable_thinking = false ->
       s = str "A<think>secret</think>B" -> out = str "AB").
Proof.
  intros Hserver Hst Hjs Hchoices Hmsg Hcontent.
  eexists. split; [by eapply chat_content|].
  split; [by intros ->|]. split.
  - intros ->. eexists _, _. rewrite think_re_span, thinking_re_span.
    split; [by apply sub_removes|]. split; [by apply sub_removes|].
    apply strip_trimmed.
  - intros -> ->. by vm_compute.
Qed.

End Thinking.

(** * Further properties of the two clients *)

(** ** The constructors *)

Section Constructors.
Context `{Runtime}.

Lemma lstrip_char_spec (c : N) (s : pystr) :
  ∃ n, s = replicate n c ++ lstrip_char c s
       ∧ head (lstrip_char c s) ≠ Some c.
Proof.
  induction s as [|d s (n & Hs & Hhead)]; simpl.
  - by exists 0%nat.
  - destruct (N.eqb_spec c d) as [<-|Hne].
    + exists (S n). simpl. by rewrite <- Hs.
    + exists 0%nat. split; [done|]. simpl. by intros [= ->].
Qed.

Lemma rstrip_char_spec (c : N) (s : pystr) :
  ∃ n, s = rstrip_char c s ++ replicate n c
       ∧ last (rstrip_char c s) ≠ Some c.
Proof.
  destruct (lstrip_char_spec c (reverse s)) as (n & Hs & Hhead).
  exists n. unfold rstrip_char. split.
  - rewrite <- (reverse_replicate n c), <- reverse_app, <- Hs.
    by rewrite reverse_involutive.
  - by rewrite last_reverse.
Qed.

(** X1. The base URL a client keeps is the URL it was given without the
    slashes at its end, and nothing else removed: it does not end in a
    slash; both classes keep the same. *)
Theorem init_strips_trailing_slashes (u : pystr) (key : option pystr) :
  ∃ n,
    u = Backend.base_url (Backend.init (Some u) key) ++ replicate n 47
    ∧ last (Backend.base_url (Backend.init (Some u) key)) ≠ Some 47
    ∧ Rag.host (Rag.init (Some u) key)
      = Backend.base_url (Backend.init (Some u) key).
Proof.
  destruct (rstrip_char_spec 47 u) as (n & Hu & Hlast).
  exists n. by repeat split.
Qed.

End Constructors.

(** ** [list_models] and [pull_model] *)

Section Models.
Context `{Runtime} `{Formatting}.

Lemma list_models_run (self : Backend.VLLMClient) (w : world)
    (ids : list value) :
  listing (server (models_request self None)) ids ->
  Backend.list_models self w
  = (Ok (VList ids),
     World (heap w) (sent w ++ [models_request self None])
       (stdout w ++ listing_log (server (models_request self None)))
       (yielded w)).
Proof.
  intros Hl. unfold Backend.list_models.
  unfold try_request, mbind, M_bind, bind, send.
  fold (models_request self None).
  destruct Hl as [r d models ids Hst Hjs Hdata Hids|r Hst|k msg]; simpl.
  - rewrite Hst. simpl. unfold response_json. rewrite Hjs.
    run_eff. rewrite Hdata. simpl.
    rewrite (comprehension_ids _ _ _ Hids). by rewrite app_nil_r.
  - apply Z.eqb_neq in Hst. rewrite Hst. run_eff. by rewrite app_nil_r.
  - by run_eff.
Qed.

Lemma listed_spec (name : pystr) (ids : list value) :
  existsb (is_str name) ids = true ↔ VStr name ∈ ids.
Proof.
  induction ids as [|v ids IH]; simpl.
  - split; [done|]. by intros ?%elem_of_nil.
  - rewrite orb_true_iff, IH, elem_of_cons. apply or_iff_compat_r.
    destruct v; simpl; try by split.
    unfold streq. rewrite bool_decide_eq_true. split; congruence.
Qed.

(** X2. [pull_model] answers [True] exactly when the name is one of the
    identifiers the server lists; it sends the one request of
    [list_models] and no other.  For a status other than 200 and for a
    failure of the network nothing is listed, so the answer is [False]. *)
Theorem pull_model_iff_listed (self : Backend.VLLMClient) (name : pystr)
    (w : world) (ids : list value) :
  listing (server (models_request self None)) ids ->
  ∃ (available : bool) (w' : world),
    Backend.pull_model self name w = (Ok (VBool available), w')
    ∧ (available = true ↔ VStr name ∈ ids)
    ∧ sent w' = sent w ++ [models_request self None].
Proof.
  intros Hl. unfold Backend.pull_model.
  erewrite bind_ok; [|by apply list_models_run].
  exists (existsb (is_str name) ids).
  unfold mbind, M_bind, bind, lift, contains_str.
  destruct (existsb (is_str name) ids) eqn:Hin; simpl;
    (eexists; split; [reflexivity|]; split; [|reflexivity]);
    by rewrite <- listed_spec, Hin.
Qed.

(** X3. Where [list_models] answers as above, it reports a failure of the
    network on standard output, in one line with the text of the
    exception; for a response, valid or with a status other than 200, it
    prints nothing. *)
Theorem list_models_reports_network_failure (self : Backend.VLLMClient)
    (w : world) (ids : list value) :
  listing (server (models_request self None)) ids ->
  stdout (Backend.list_models self w).2
  = stdout w
    ++ match server (models_request self None) with
       | NetFail _ msg => [str "Error fetching models: " ++ msg]
       | NetResp _ => []
       end.
Proof. intros Hl. by rewrite (list_models_run self w ids Hl). Qed.

End Models.

(** ** Exchanges that do not succeed *)

Section Failures.
Context `{Runtime} `{Imaging}.

(** X4. [chat] turns an exchange that did not succeed into text: for a
    status other than 200 the status and the body of the response, for a
    failure of the network the text of the exception.  It prints nothing,
    and [enable_thinking] plays no part. *)
Theorem chat_failure_text (self : Backend.VLLMClient) (message model : pystr)
    (history : option loc) (enable_thinking : bool) (w : world) (t : pystr) :
  refusal (server (chat_request self model
                     (history_of w history ++ [Backend.user_message message])
                     false)) t ->
  ∃ w',
    Backend.chat self message model history enable_thinking w
    = (Ok (VStr t), w')
    ∧ stdout w' = stdout w.
Proof.
  intros Hr. unfold Backend.chat, chat_request in *.
  destruct history as [h|]; simpl in Hr;
    repeat (erewrite bind_ok; [|reflexivity]);
    repeat (erewrite try_bind_ok; [|reflexivity]);
    unfold try_request, mbind, M_bind, bind, send;
    simpl heap; rewrite ?lookup_total_insert_eq; cbn [app];
    (inversion Hr as [r Hst Hn|k msg Hn]; cbn [fst snd];
     [apply Z.eqb_neq in Hst; rewrite Hst|]; by eexists).
Qed.

(** X5. [chat_stream] turns an exchange that did not succeed into its one
    fragment: for a status other than 200 the status and the body of the
    response, for a failure of the network the text of the exception.  The
    generator ends without raising. *)
Theorem chat_stream_failure_fragment (self : Backend.VLLMClient)
    (message model : pystr) (history : option loc) (enable_thinking : bool)
    (w : world) (t : pystr) :
  refusal (server (chat_request self model
                     (history_of w history ++ [Backend.user_message message])
                     true)) t ->
  ∃ w',
    Backend.chat_stream self message model history enable_thinking w
    = (Ok tt, w')
    ∧ yielded w' = yielded w ++ [VStr t].
Proof.
  intros Hr. unfold Backend.chat_stream, chat_request in *.
  destruct history as [h|]; simpl in Hr;
    repeat (erewrite bind_ok; [|reflexivity]);
    repeat (erewrite try_bind_ok; [|reflexivity]);
    unfold try_request, mbind, M_bind, bind, send;
    simpl heap; rewrite ?lookup_total_insert_eq; cbn [app];
    (inversion Hr as [r Hst Hn|k msg Hn]; cbn [fst snd];
     [apply Z.eqb_neq in Hst; rewrite Hst|]; by eexists).
Qed.

End Failures.

Section RagFailures.
Context `{Runtime} `{Imaging}.

(** X6. When the exchange does not succeed, [generate_embedding] returns
    the empty list and prints one line, with the text of the exception. *)
Theorem generate_embedding_failure_logged (self : Rag.VLLMClient)
    (model text : pystr) (w : world) (msg : pystr) :
  failure (server (embedding_request self model text)) msg ->
  ∃ w',
    Rag.generate_embedding self model text w = (Ok (VList []), w')
    ∧ stdout w' = stdout w ++ [str "Error generating embedding: " ++ msg].
Proof.
  intros Hf. unfold Rag.generate_embedding, embedding_request in *.
  unfold try_request, mbind, M_bind, bind, send, raise_for_status.
  inversion Hf as [r m Hmsg Hn|k m Hn]; [rewrite Hmsg|]; by eexists.
Qed.

(** X7. When the exchange does not succeed, [generate_completion] returns
    the empty dictionary, not a dictionary with a [response], and prints
    one line with the text of the exception; so with images as without. *)
Theorem generate_completion_failure_logged (self : Rag.VLLMClient)
    (model prompt : pystr) (images : option (list image)) (w : world)
    (n : net_result) (msg : pystr) :
  (∀ req, server req = n) ->
  failure n msg ->
  ∃ w',
    Rag.generate_completion self model prompt images w = (Ok (VDict []), w')
    ∧ stdout w' = stdout w ++ [str "Error generating completion: " ++ msg].
Proof.
  intros Hserver Hf. unfold Rag.generate_completion.
  destruct images as [[|img rest]|]; simpl Rag.some_images; cbv iota zeta;
    repeat (erewrite try_bind_ok;
            [|first [apply append_images_run, lookup_insert_eq|reflexivity]]);
    unfold try_request, mbind, M_bind, bind, send, raise_for_status;
    rewrite Hserver;
    (destruct Hf as [r m Hmsg|k m]; [rewrite Hmsg|]; by eexists).
Qed.

(** X8. When the exchange does not succeed, [stream_completion] yields one
    fragment, the text of the exception behind [Connection error: ], and
    ends without raising: a status from 400 to 599 reads as a connection
    error too. *)
Theorem stream_completion_failure_fragment (self : Rag.VLLMClient)
    (model prompt : pystr) (images : option (list image)) (w : world)
    (n : net_result) (msg : pystr) :
  (∀ req, server req = n) ->
  failure n msg ->
  ∃ w',
    Rag.stream_completion self model prompt images w = (Ok tt, w')
    ∧ yielded w' = yielded w ++ [VStr (str "Connection error: " ++ msg)].
Proof.
  intros Hserver Hf. unfold Rag.stream_completion.
  destruct images as [[|img rest]|]; simpl Rag.some_images; cbv iota zeta;
    repeat (erewrite try_bind_ok;
            [|first [apply append_images_run, lookup_insert_eq|reflexivity]]);
    unfold try_request, mbind, M_bind, bind, send, raise_for_status;
    rewrite Hserver;
    (destruct Hf as [r m Hmsg|k m]; [rewrite Hmsg|]; by eexists).
Qed.

End RagFailures.

(** ** The answer of [generate_completion] *)

Section Answer.
Context `{Runtime} `{Imaging}.

(** X9. For a response with a status from 200 to 299 and a first choice,
    [generate_completion] returns the dictionary with the two keys
    [response] and [done], [done] being [True]: the response is the [text]
    of the first choice when no image was given, and the [content] of its
    [message] when there was one.  Nothing is printed. *)
Theorem generate_completion_answer (self : Rag.VLLMClient)
    (model prompt : pystr) (images : option (list image)) (w : world)
    (r : response) (d choice : list (pystr * value)) (others : list value)
    (v : value) :
  (∀ req, server req = NetResp r) ->
  (200 <= status_code r < 300)%Z ->
  json_loads (text r) = Some (VDict d) ->
  dict_lookup d (str "choices") = Some (VList (VDict choice :: others)) ->
  match images with
  | Some (_ :: _) =>
      ∃ msg, dict_lookup choice (str "message") = Some (VDict msg)
             ∧ dict_lookup msg (str "content") = Some v
  | _ => dict_lookup choice (str "text") = Some v
  end ->
  ∃ w',
    Rag.generate_completion self model prompt images w
    = (Ok (VDict [(str "response", v); (str "done", VBool true)]), w')
    ∧ stdout w' = stdout w.
Proof.
  intros Hserver Hst%http_error_msg_2xx Hjs Hchoices Hv.
  unfold Rag.generate_completion.
  destruct images as [[|img rest]|]; simpl Rag.some_images; cbv iota zeta;
    repeat (erewrite try_bind_ok;
            [|first [apply append_images_run, lookup_insert_eq|reflexivity]]);
    unfold try_request, mbind, M_bind, bind, send, raise_for_status,
      response_json;
    rewrite Hserver, Hst; cbn [ret]; rewrite Hjs;
    unfold lift, getitem_key; cbn [ret];
    rewrite Hchoices; cbn [getitem_idx index_of length]; simpl;
    try (destruct Hv as (msg & Hmsg & Hv); rewrite Hmsg);
    rewrite Hv; by eexists.
Qed.

End Answer.

(** ** What the streaming methods yield *)

Section Fragments.
Context `{Runtime} `{Imaging}.

(** The body of the loop yields nothing or one fragment, and the fragment
    is true as a condition; with thinking off it holds no opening tag.  A
    [RequestException] does not come out of it. *)
Lemma chat_stream_line_yields (enable_thinking : bool) (t : pystr)
    (w : world) :
  let run := Backend.chat_stream_line enable_thinking t w in
  (∃ new, yielded run.2 = yielded w ++ new
          ∧ Forall nonempty_fragment new
          ∧ (enable_thinking = false -> Forall plain_fragment new))
  ∧ (∀ k msg, run.1 ≠ Raise (RequestException k msg)).
Proof.
  unfold Backend.chat_stream_line, try_json, mbind, M_bind, bind, loads,
    json_exception, lift, yield, mret, M_ret, ret, raise, contains_str,
    getitem_key, len, getitem_idx, get_method, lower_method.
  repeat (case_match; simplify_eq/=);
    (split; [|done]);
    try (exists []; rewrite app_nil_r; by repeat split).
  - exists [VStr s]. split; [done|]. split; [by repeat constructor|].
    intros _. repeat constructor. exists s.
    repeat match goal with
    | Hor : _ || _ = false |- _ => apply orb_false_iff in Hor as [? ?]
    | Hne : negb (bool_decide _) = true |- _ =>
        apply negb_true_iff, bool_decide_eq_false in Hne
    end.
    done.
  - eexists [_]. split; [done|]. split; [by repeat constructor|].
    intros ->. done.
Qed.


Lemma stream_line_chat_yields (t : pystr) :
  respects (yields_only nonempty_fragment) (Rag.stream_line_chat t).
Proof.
  intros w.
  unfold Rag.stream_line_chat, try_json, mbind, M_bind, bind, loads,
    json_exception, lift, yield, mret, M_ret, ret, raise, contains_str,
    getitem_key, len, getitem_idx, get_method.
  repeat (case_match; simplify_eq/=);
    try (exists []; by rewrite app_nil_r).
  eexists [_]. split; [done|]. by repeat constructor.
Qed.

Lemma stream_line_text_yields (t : pystr) :
  respects (yields_only nonempty_fragment) (Rag.stream_line_text t).
Proof.
  intros w.
  unfold Rag.stream_line_text, try_json, mbind, M_bind, bind, loads,
    json_exception, lift, yield, mret, M_ret, ret, raise, contains_str,
    getitem_key, len, getitem_idx, get_method.
  repeat (case_match; simplify_eq/=);
    try (exists []; by rewrite app_nil_r).
  eexists [_]. split; [done|]. by repeat constructor.
Qed.

(** The loop of [chat_stream]: what holds of each turn holds of the loop. *)
Lemma chat_stream_lines_yields (enable_thinking : bool) (lines : list bytes)
    (err : option (request_error * pystr)) (w : world) :
  let run := Backend.chat_stream_lines enable_thinking lines err w in
  (∃ new, yielded run.2 = yielded w ++ new
          ∧ Forall nonempty_fragment new
          ∧ (enable_thinking = false -> Forall plain_fragment new))
  ∧ (err = None -> ∀ k msg, run.1 ≠ Raise (RequestException k msg)).
Proof.
  assert (Hnone : ∀ w0 : world,
            ∃ new, yielded w0 = yielded w0 ++ new
                   ∧ Forall nonempty_fragment new
                   ∧ (enable_thinking = false -> Forall plain_fragment new)).
  { intros w0. exists []. rewrite app_nil_r. by repeat split. }
  revert w. induction lines as [|line rest IH]; intros w; simpl.
  - destruct err as [[k msg]|]; (split; [apply Hnone|done]).
  - case_bool_decide; [apply IH|].
    unfold mbind, M_bind, bind, decode.
    destruct (decode_utf8 line) as [lt|]; simpl; [|split; [apply Hnone|done]].
    destruct (streq _ _); [split; [apply Hnone|done]|].
    match goal with
    | |- context [Backend.chat_stream_line ?et ?t ?w0] =>
        destruct (chat_stream_line_yields et t w0)
          as [(n1 & Hy1 & Hq1 & Hp1) Hexn1];
        destruct (Backend.chat_stream_line et t w0) as [[[]|e] w1]
    end; simpl in *.
    + destruct (IH w1) as [(n2 & Hy2 & Hq2 & Hp2) Hexn2].
      split; [|done]. exists (n1 ++ n2).
      split; [by rewrite Hy2, Hy1, app_assoc|].
      split; [by apply Forall_app|]. intros Het. apply Forall_app. auto.
    + split; [by exists n1|]. intros _. apply Hexn1.
Qed.

Lemma append_images_yields (Q : value -> Prop) (content : loc)
    (images : list image) :
  respects (yields_only Q) (Rag.append_images content images).
Proof.
  induction images as [|img rest IH]; simpl; [apply respects_ret; apply _|].
  apply respects_bind; [apply _| |done].
  by apply yields_only_quiet.
Qed.

Ltac yields_only :=
  repeat first
    [ apply yields_only_yield; done
    | apply append_images_yields
    | apply stream_line_chat_yields
    | apply stream_line_text_yields
    | apply yields_only_quiet; intros ?; unfold send; try case_match; done
    | apply respects_stream_lines; [typeclasses eauto|intros ?]
    | respects_step ].

(** X10. No fragment that [chat_stream] or [stream_completion] yields is
    empty: whatever the server answers, each one is true as a condition,
    for a string a text of at least one character. *)
Theorem fragments_are_nonempty (backend : Backend.VLLMClient)
    (rag : Rag.VLLMClient) (message model prompt : pystr)
    (history : option loc) (images : option (list image))
    (enable_thinking : bool) (w : world) :
  (∃ new,
     yielded (Backend.chat_stream backend message model history
                enable_thinking w).2
     = yielded w ++ new
     ∧ Forall (fun v => truthy v = true) new)
  ∧ (∃ new,
       yielded (Rag.stream_completion rag model prompt images w).2
       = yielded w ++ new
       ∧ Forall (fun v => truthy v = true) new).
Proof.
  split.
  - revert w. change (respects (yields_only nonempty_fragment)
                        (Backend.chat_stream backend message model history
                           enable_thinking)).
    unfold Backend.chat_stream. yields_only.
    intros w.
    match goal with
    | |- context [Backend.chat_stream_lines ?et ?ls ?e ?w0] =>
        destruct (chat_stream_lines_yields et ls e w0)
          as [(new & Hy & Hq & _) _]
    end.
    by exists new.
  - revert w. change (respects (yields_only nonempty_fragment)
                        (Rag.stream_completion rag model prompt images)).
    unfold Rag.stream_completion.
    destruct images as [[|img rest]|]; simpl Rag.some_images; cbv iota zeta;
      yields_only.
Qed.

(** X11. With thinking disabled, no fragment that [chat_stream] yields
    from a response with status 200 holds an opening tag [<think>] or
    [<thinking>], in whatever case: each one is a non-empty string whose
    lower case has neither.  (The connection is taken not to break.) *)
Theorem chat_stream_filters_thinking (self : Backend.VLLMClient)
    (message model : pystr) (history : option loc) (w : world)
    (r : response) :
  server (chat_request self model
            (history_of w history ++ [Backend.user_message message]) true)
  = NetResp r ->
  status_code r = 200%Z ->
  body_error r = None ->
  ∃ new,
    yielded (Backend.chat_stream self message model history false w).2
    = yielded w ++ new
    ∧ Forall plain_fragment new.
Proof.
  intros Hserver Hst Herr.
  unfold Backend.chat_stream, chat_request in *.
  destruct history as [h|]; simpl in Hserver;
    repeat (erewrite bind_ok; [|reflexivity]);
    repeat (erewrite try_bind_ok; [|reflexivity]);
    unfold try_request, mbind at 1, M_bind, bind at 1, send; simpl heap;
    rewrite ?lookup_total_insert_eq; cbn [app];
    rewrite Hserver, Hst, Herr; cbv iota;
    change (200 =? 200)%Z with true; cbv iota;
    match goal with
    | |- context [Backend.chat_stream_lines false ?ls None ?w0] =>
        destruct (chat_stream_lines_yields false ls None w0)
          as [(new & Hy & _ & Hp) Hexn];
        specialize (Hexn eq_refl);
        destruct (Backend.chat_stream_lines false ls None w0)
          as [[[]|[]] w1]
    end; simpl in *; try (exists new; by auto);
    by destruct (Hexn k msg).
Qed.

End Fragments.

(** ** A connection that breaks while the answer is streamed *)

Section Broken.
Context {R : Runtime} {I : Imaging}.



End Broken.

(** ** The end marker *)

Section Stopping.
Context `{Runtime}.

Lemma end_marker_nonempty (line : bytes) : end_marker line -> line ≠ [].
Proof.
  intros (t & Ht & Hdone) ->. vm_compute in Ht. injection Ht as <-.
  vm_compute in Hdone. discriminate Hdone.
Qed.

(** The loops stop at the end marker: what the body holds behind it, and
    how the body ends, is not looked at. *)
Lemma chat_stream_lines_stop (enable_thinking : bool) (line : bytes)
    (pre post : list bytes) (err : option (request_error * pystr))
    (w : world) :
  end_marker line ->
  Backend.chat_stream_lines enable_thinking (pre ++ line :: post) err w
  = Backend.chat_stream_lines enable_thinking (pre ++ [line]) None w.
Proof.
  intros Hend. pose proof (end_marker_nonempty _ Hend) as Hne.
  destruct Hend as (t & Ht & Hdone). unfold sse_payload in Hdone. revert w.
  induction pre as [|l pre IH]; intros w; simpl.
  - rewrite !bool_decide_eq_false_2 by done.
    unfold mbind, M_bind, bind, decode. rewrite Ht. simpl.
    unfold streq. by rewrite bool_decide_eq_true_2 by done.
  - case_bool_decide; [apply IH|].
    unfold mbind, M_bind, bind.
    destruct (decode l w) as [[lt|e] w1]; [|done].
    destruct (streq _ _); [done|].
    destruct (Backend.chat_stream_line _ _ w1) as [[[]|e] w2]; [|done].
    apply IH.
Qed.

Lemma stream_lines_stop (on_line : pystr -> M unit) (line : bytes)
    (pre post : list bytes) (err : option (request_error * pystr))
    (w : world) :
  end_marker line ->
  Rag.stream_lines on_line (pre ++ line :: post) err w
  = Rag.stream_lines on_line (pre ++ [line]) None w.
Proof.
  intros Hend. pose proof (end_marker_nonempty _ Hend) as Hne.
  destruct Hend as (t & Ht & Hdone). unfold sse_payload in Hdone. revert w.
  induction pre as [|l pre IH]; intros w; simpl.
  - rewrite !bool_decide_eq_false_2 by done.
    unfold mbind, M_bind, bind, decode. rewrite Ht. simpl.
    unfold streq. by rewrite bool_decide_eq_true_2 by done.
  - case_bool_decide; [apply IH|].
    unfold mbind, M_bind, bind.
    destruct (decode l w) as [[lt|e] w1]; [|done].
    destruct (streq _ _); [done|].
    destruct (on_line _ w1) as [[[]|e] w2]; [|done].
    apply IH.
Qed.

End Stopping.

Section EndMarker.
Context {R : Runtime} {I : Imaging}.

(** X13. The streaming methods stop reading at the end marker
    [data: [DONE]]: [chat_stream] and [stream_completion] run on a response
    as on the response cut off behind its first end marker.  The lines
    behind the marker yield nothing, and a connection that breaks behind
    it goes unnoticed. *)
Theorem nothing_read_behind_end_marker (backend : Backend.VLLMClient)
    (rag : Rag.VLLMClient) (message model prompt : pystr)
    (history : option loc) (images : option (list image))
    (enable_thinking : bool) (w : world) (r : response) (line : bytes)
    (pre post : list bytes) :
  end_marker line ->
  body_lines r = pre ++ line :: post ->
  let whole := with_server R (fun _ => NetResp r) in
  let cut :=
    with_server R
      (fun _ => NetResp (with_error (with_lines r (pre ++ [line])) None)) in
  @Backend.chat_stream whole backend message model history enable_thinking w
  = @Backend.chat_stream cut backend message model history enable_thinking w
  ∧ @Rag.stream_completion whole _ rag model prompt images w
    = @Rag.stream_completion cut _ rag model prompt images w.
Proof.
  intros Hend Hlines whole cut. split.
  - unfold Backend.chat_stream.
    destruct history as [h|];
      repeat (erewrite bind_ok; [|reflexivity]);
      repeat (erewrite try_bind_ok; [|reflexivity]);
      unfold try_request, mbind, M_bind, bind, send; simpl;
      (destruct (status_code r =? 200)%Z; [|done]);
      rewrite Hlines;
      lazymatch goal with
      | |- context [@Backend.chat_stream_lines ?R1 ?et
                      (pre ++ line :: post) ?e ?w1] =>
          rewrite (@chat_stream_lines_stop R1 et line pre post e w1 Hend)
      end;
      lazymatch goal with
      | |- context [@Backend.chat_stream_lines ?R1 ?et (pre ++ [line]) ?e] =>
          by rewrite (chat_stream_lines_runtime R1 cut)
      end.
  - unfold Rag.stream_completion.
    destruct images as [[|img rest]|]; simpl Rag.some_images; cbv iota zeta;
      (lazymatch goal with |- _ = ?rhs => set (run_cut := rhs) end);
      repeat (erewrite try_bind_ok;
              [|first [apply append_images_run, lookup_insert_eq
                      |reflexivity]]);
      subst run_cut;
      (lazymatch goal with |- ?lhs = _ => set (run_whole := lhs) end);
      repeat (erewrite try_bind_ok;
              [|first [apply append_images_run, lookup_insert_eq
                      |reflexivity]]);
      subst run_whole;
      unfold try_request, mbind, M_bind, bind, send, raise_for_status;
      cbn [server whole cut with_server];
      change (http_error_msg (with_error (with_lines r ?ls) ?e))
        with (http_error_msg r);
      (destruct (http_error_msg r); [reflexivity|]);
      cbn [body_lines body_error with_lines with_error ret raise];
      rewrite Hlines;
      lazymatch goal with
      | |- context [Rag.stream_lines (@Rag.stream_line_chat ?R1)
                      (pre ++ line :: post) ?e ?w1] =>
          rewrite (@stream_lines_stop (@Rag.stream_line_chat R1) line
                     pre post e w1 Hend);
          by rewrite (proj1 (stream_lines_runtime R1 cut _ _ eq_refl eq_refl))
      | |- context [Rag.stream_lines (@Rag.stream_line_text ?R1)
                      (pre ++ line :: post) ?e ?w1] =>
          rewrite (@stream_lines_stop (@Rag.stream_line_text R1) line
                     pre post e w1 Hend);
          by rewrite (proj2 (stream_lines_runtime R1 cut _ _ eq_refl eq_refl))
      end.
Qed.

End EndMarker.

(** ** Events without text *)

Section Silent.
Context `{Runtime}.

Lemma bool_decide_some_false {A} (o : option A) :
  o = None -> bool_decide (is_Some o) = false.
Proof. intros ->. apply bool_decide_eq_false. by intros [? ?]. Qed.

Lemma bool_decide_some_true {A} (o : option A) (a : A) :
  o = Some a -> bool_decide (is_Some o) = true.
Proof. intros ->. by apply bool_decide_eq_true. Qed.

Lemma chat_stream_line_silent (enable_thinking : bool) (t : pystr)
    (data : value) (w : world) :
  json_loads t = Some data ->
  silent delta_content data ->
  Backend.chat_stream_line enable_thinking t w = (Ok tt, w).
Proof.
  intros Hjs Hs. unfold Backend.chat_stream_line.
  erewrite try_json_bind_ok; [|unfold loads; by rewrite Hjs].
  unfold try_json, mbind, M_bind, bind, lift, contains_str, getitem_key.
  destruct Hs as [d Hd|d Hd|d choice others c Hd Hc Hfalse].
  - by rewrite (bool_decide_some_false _ Hd).
  - rewrite (bool_decide_some_true _ _ Hd). simpl. by rewrite Hd.
  - rewrite (bool_decide_some_true _ _ Hd). simpl. rewrite Hd. simpl.
    unfold delta_content in Hc. unfold get_method.
    destruct choice as [| | | | | |ch]; try done.
    destruct (default (VDict []) (dict_lookup ch (str "delta")))
      as [| | | | | |delta]; try done.
    injection Hc as <-. simpl. by rewrite Hfalse.
Qed.

Lemma stream_line_chat_silent (t : pystr) (data : value) (w : world) :
  json_loads t = Some data ->
  silent delta_content data ->
  Rag.stream_line_chat t w = (Ok tt, w).
Proof.
  intros Hjs Hs. unfold Rag.stream_line_chat.
  erewrite try_json_bind_ok; [|unfold loads; by rewrite Hjs].
  unfold try_json, mbind, M_bind, bind, lift, contains_str, getitem_key.
  destruct Hs as [d Hd|d Hd|d choice others c Hd Hc Hfalse].
  - by rewrite (bool_decide_some_false _ Hd).
  - rewrite (bool_decide_some_true _ _ Hd). simpl. by rewrite Hd.
  - rewrite (bool_decide_some_true _ _ Hd). simpl. rewrite Hd. simpl.
    unfold delta_content in Hc. unfold get_method.
    destruct choice as [| | | | | |ch]; try done.
    destruct (default (VDict []) (dict_lookup ch (str "delta")))
      as [| | | | | |delta]; try done.
    injection Hc as <-. simpl. by rewrite Hfalse.
Qed.

Lemma stream_line_text_silent (t : pystr) (data : value) (w : world) :
  json_loads t = Some data ->
  silent choice_text data ->
  Rag.stream_line_text t w = (Ok tt, w).
Proof.
  intros Hjs Hs. unfold Rag.stream_line_text.
  erewrite try_json_bind_ok; [|unfold loads; by rewrite Hjs].
  unfold try_json, mbind, M_bind, bind, lift, contains_str, getitem_key.
  destruct Hs as [d Hd|d Hd|d choice others c Hd Hc Hfalse].
  - by rewrite (bool_decide_some_false _ Hd).
  - rewrite (bool_decide_some_true _ _ Hd). simpl. by rewrite Hd.
  - rewrite (bool_decide_some_true _ _ Hd). simpl. rewrite Hd. simpl.
    unfold choice_text in Hc. unfold get_method.
    destruct choice as [| | | | | |ch]; try done.
    injection Hc as <-. simpl. by rewrite Hfalse.
Qed.

(** A line on which the body of the loop does nothing can be left out. *)
Lemma chat_stream_lines_drop (enable_thinking : bool) (line : bytes)
    (t : pystr) (pre post : list bytes)
    (err : option (request_error * pystr)) (w : world) :
  decode_utf8 line = Some t ->
  strip (sse_payload t) ≠ str "[DONE]" ->
  (∀ w, Backend.chat_stream_line enable_thinking (sse_payload t) w
        = (Ok tt, w)) ->
  Backend.chat_stream_lines enable_thinking (pre ++ line :: post) err w
  = Backend.chat_stream_lines enable_thinking (pre ++ post) err w.
Proof.
  intros Ht Hdone Hline. unfold sse_payload in Hdone, Hline. revert w.
  induction pre as [|l pre IH]; intros w; simpl.
  - case_bool_decide; [done|].
    unfold mbind, M_bind, bind, decode. rewrite Ht. simpl.
    unfold streq. rewrite bool_decide_eq_false_2 by done.
    by rewrite Hline.
  - case_bool_decide; [apply IH|].
    unfold mbind, M_bind, bind.
    destruct (decode l w) as [[lt|e] w1]; [|done].
    destruct (streq _ _); [done|].
    destruct (Backend.chat_stream_line _ _ w1) as [[[]|e] w2]; [|done].
    apply IH.
Qed.

Lemma stream_lines_drop (on_line : pystr -> M unit) (line : bytes)
    (t : pystr) (pre post : list bytes)
    (err : option (request_error * pystr)) (w : world) :
  decode_utf8 line = Some t ->
  strip (sse_payload t) ≠ str "[DONE]" ->
  (∀ w, on_line (sse_payload t) w = (Ok tt, w)) ->
  Rag.stream_lines on_line (pre ++ line :: post) err w
  = Rag.stream_lines on_line (pre ++ post) err w.
Proof.
  intros Ht Hdone Hline. unfold sse_payload in Hdone, Hline. revert w.
  induction pre as [|l pre IH]; intros w; simpl.
  - case_bool_decide; [done|].
    unfold mbind, M_bind, bind, decode. rewrite Ht. simpl.
    unfold streq. rewrite bool_decide_eq_false_2 by done.
    by rewrite Hline.
  - case_bool_decide; [apply IH|].
    unfold mbind, M_bind, bind.
    destruct (decode l w) as [[lt|e] w1]; [|done].
    destruct (streq _ _); [done|].
    destruct (on_line _ w1) as [[[]|e] w2]; [|done].
    apply IH.
Qed.

End Silent.

Section SilentOperations.
Context {R : Runtime} {I : Imaging}.

(** X14. An event without text is passed over by [chat_stream]: where the
    object has no [choices], or an empty list of them, or the [delta] of
    its first choice has no [content], or one that is empty or [null],
    the generator runs as on the response without that line. *)
Theorem chat_stream_passes_over_silent_event (self : Backend.VLLMClient)
    (message model : pystr) (history : option loc) (enable_thinking : bool)
    (w : world) (r : response) (line : bytes) (data : value)
    (pre post : list bytes) :
  event line data ->
  silent delta_content data ->
  @Backend.chat_stream
     (with_server R (fun _ => NetResp (with_lines r (pre ++ line :: post))))
     self message model history enable_thinking w
  = @Backend.chat_stream
      (with_server R (fun _ => NetResp (with_lines r (pre ++ post))))
      self message model history enable_thinking w.
Proof.
  intros (t & Ht & Hdone & Hjs) Hs.
  set (without := with_server R (fun _ => NetResp (with_lines r (pre ++ post)))).
  unfold Backend.chat_stream.
  destruct history as [h|];
    repeat (erewrite bind_ok; [|reflexivity]);
    repeat (erewrite try_bind_ok; [|reflexivity]);
    unfold try_request, mbind, M_bind, bind, send; simpl;
    (destruct (status_code r =? 200)%Z; [|done]);
    lazymatch goal with
    | |- context [@Backend.chat_stream_lines ?R1 ?et
                    (pre ++ line :: post) ?e ?w1] =>
        rewrite (@chat_stream_lines_drop R1 et line t pre post e w1 Ht Hdone
                   (fun w => @chat_stream_line_silent R1 et _ data w Hjs Hs))
    end;
    lazymatch goal with
    | |- context [@Backend.chat_stream_lines ?R1 ?et (pre ++ post) ?e] =>
        by rewrite (chat_stream_lines_runtime R1 without)
    end.
Qed.

(** X15. An event without text is passed over by [stream_completion]:
    the generator runs as on the response without that line.  With an
    image in the call the text it looks for is the [content] of the
    [delta] of the first choice, without one the [text] of the choice. *)
Theorem stream_completion_passes_over_silent_event (self : Rag.VLLMClient)
    (model prompt : pystr) (images : option (list image)) (w : world)
    (r : response) (line : bytes) (data : value) (pre post : list bytes) :
  event line data ->
  silent (streamed_text images) data ->
  @Rag.stream_completion
     (with_server R (fun _ => NetResp (with_lines r (pre ++ line :: post))))
     _ self model prompt images w
  = @Rag.stream_completion
      (with_server R (fun _ => NetResp (with_lines r (pre ++ post))))
      _ self model prompt images w.
Proof.
  intros (t & Ht & Hdone & Hjs) Hs.
  set (with_line :=
         with_server R (fun _ => NetResp (with_lines r (pre ++ line :: post)))).
  set (without := with_server R (fun _ => NetResp (with_lines r (pre ++ post)))).
  unfold Rag.stream_completion.
  destruct images as [[|img rest]|]; simpl in Hs;
    simpl Rag.some_images; cbv iota zeta;
    (lazymatch goal with |- _ = ?rhs => set (run_without := rhs) end);
    repeat (erewrite try_bind_ok;
            [|first [apply append_images_run, lookup_insert_eq
                    |reflexivity]]);
    subst run_without;
    (lazymatch goal with |- ?lhs = _ => set (run_with := lhs) end);
    repeat (erewrite try_bind_ok;
            [|first [apply append_images_run, lookup_insert_eq
                    |reflexivity]]);
    subst run_with;
    unfold try_request, mbind, M_bind, bind, send, raise_for_status;
    cbn [server with_line without with_server];
    change (http_error_msg (with_lines r ?ls)) with (http_error_msg r);
    (destruct (http_error_msg r); [reflexivity|]);
    cbn [body_lines body_error with_lines ret raise];
    lazymatch goal with
    | |- context [Rag.stream_lines (@Rag.stream_line_chat ?R1)
                    (pre ++ line :: post) ?e ?w1] =>
        rewrite (@stream_lines_drop (@Rag.stream_line_chat R1) line t
                   pre post e w1 Ht Hdone
                   (fun w => @stream_line_chat_silent R1 _ data w Hjs Hs));
        by rewrite (proj1 (stream_lines_runtime R1 without _ _ eq_refl eq_refl))
    | |- context [Rag.stream_lines (@Rag.stream_line_text ?R1)
                    (pre ++ line :: post) ?e ?w1] =>
        rewrite (@stream_lines_drop (@Rag.stream_line_text R1) line t
                   pre post e w1 Ht Hdone
                   (fun w => @stream_line_text_silent R1 _ data w Hjs Hs));
        by rewrite (proj2 (stream_lines_runtime R1 without _ _ eq_refl eq_refl))
    end.
Qed.

End SilentOperations.

(** ** The API key *)

Section Token.
Context `{Runtime} `{Imaging} `{Formatting}.

#[local] Instance sends_only_preorder (Q : request -> Prop) :
  PreOrder (sends_only Q).
Proof.
  split.
  - intros w. exists []. by rewrite app_nil_r.
  - intros w1 w2 w3 (n1 & Hs1 & Q1) (n2 & Hs2 & Q2). exists (n1 ++ n2).
    split; [by rewrite Hs2, Hs1, app_assoc|by apply Forall_app].
Qed.

Lemma sends_only_send (Q : request -> Prop) (req : request) :
  Q req -> respects (sends_only Q) (send req).
Proof.
  intros Hq w. exists [req]. unfold send.
  split; [by destruct (server req)|by constructor].
Qed.

Lemma sends_only_quiet {A} (Q : request -> Prop) (m : M A) :
  respects same_sent m -> respects (sends_only Q) m.
Proof. intros Hm w. exists []. by rewrite app_nil_r, (Hm w). Qed.

Lemma append_images_same_sent (content : loc) (images : list image) :
  respects same_sent (Rag.append_images content images).
Proof.
  induction images as [|img rest IH]; simpl; [same_sent|].
  apply respects_bind; [apply _|apply same_sent_append|intros _; exact IH].
Qed.

Ltac sends_only :=
  repeat first
    [ apply sends_only_send; done
    | apply sends_only_quiet;
      first [ apply same_sent_print | apply same_sent_yield
            | apply same_sent_alloc | apply same_sent_read
            | apply append_images_same_sent
            | apply (respects_chat_stream_lines same_sent same_sent_yield)
            | apply respects_stream_lines;
              [typeclasses eauto
              |intros ?;
               first [ apply (respects_stream_line_chat same_sent
                                same_sent_yield)
                     | apply (respects_stream_line_text same_sent
                                same_sent_yield) ]] ]
    | respects_step ].

(** X16. A client made with an API key sends the key with every request:
    each request of each method carries the header [Authorization] with
    [Bearer ] and the key, beside the content type.  The key given to the
    constructor is the one sent, whatever the environment holds. *)
Theorem api_key_sent_with_every_request (u key model message prompt
    text : pystr) (history : option loc) (images : option (list image))
    (enable_thinking : bool) :
  key ≠ [] ->
  let backend := Backend.init (Some u) (Some key) in
  let rag := Rag.init (Some u) (Some key) in
  respects (sends_only (bearer key)) (Backend.is_server_running backend)
  ∧ respects (sends_only (bearer key)) (Backend.list_models backend)
  ∧ respects (sends_only (bearer key)) (Backend.pull_model backend model)
  ∧ respects (sends_only (bearer key))
      (Backend.chat backend message model history enable_thinking)
  ∧ respects (sends_only (bearer key))
      (Backend.chat_stream backend message model history enable_thinking)
  ∧ respects (sends_only (bearer key))
      (Rag.generate_embedding rag model text)
  ∧ respects (sends_only (bearer key))
      (Rag.generate_completion rag model prompt images)
  ∧ respects (sends_only (bearer key))
      (Rag.stream_completion rag model prompt images).
Proof.
  intros Hkey backend rag. destruct key as [|c k]; [done|].
  assert (Hlist : respects (sends_only (bearer (c :: k)))
                    (Backend.list_models backend)).
  { unfold Backend.list_models. sends_only. }
  repeat split; try exact Hlist.
  - unfold Backend.is_server_running. sends_only.
  - unfold Backend.pull_model. sends_only. exact Hlist.
  - unfold Backend.chat. sends_only.
  - unfold Backend.chat_stream. sends_only.
  - unfold Rag.generate_embedding. sends_only.
  - unfold Rag.generate_completion, Rag.some_images. sends_only.
  - unfold Rag.stream_completion, Rag.some_images. sends_only.
Qed.

End Token.

(** ** More on the clean-up of [chat] *)

Section Cleanup.
Context {R : Runtime}.

Lemma span_free_removed (open close s : pystr) :
  span_free open close s -> spans_removed open close s s.
Proof.
  induction s as [|ch s IH]; intros Hfree; [constructor|].
  apply removed_keep.
  - by apply (Hfree []).
  - apply IH. intros pre suf ->. by apply (Hfree (ch :: pre)).
Qed.

(** A text without a closing tag has no span. *)
Lemma no_close_span_free (open close s : pystr) :
  find_close close s = None -> span_free open close s.
Proof.
  intros Hnone pre suf -> (o & body & c & rest & -> & _ & Hc).
  apply (find_close_None close _ (pre ++ o ++ body) c rest Hnone);
    [by rewrite <- !app_assoc|done].
Qed.

Lemma sub_span_free (open close s : pystr) :
  open ≠ [] ->
  span_free open close s ->
  Re.sub (span_re open close) s = s.
Proof.
  intros Hopen Hfree.
  apply (spans_removed_functional open close Hopen s);
    [by apply sub_removes|by apply span_free_removed].
Qed.

(** X17. A text in which no span stands is only trimmed by the clean-up:
    with thinking disabled [chat] returns the text of the response without
    the white space around it.  An opening tag that is never closed is
    no span, and stays in the text. *)
Theorem chat_keeps_text_without_spans (self : Backend.VLLMClient)
    (message model : pystr) (history : option loc) (w : world)
    (r : response) (d choice msg : list (pystr * value))
    (others : list value) (s : pystr) :
  server (chat_request self model
            (history_of w history ++ [Backend.user_message message]) false)
  = NetResp r ->
  status_code r = 200%Z ->
  json_loads (text r) = Some (VDict d) ->
  dict_lookup d (str "choices") = Some (VList (VDict choice :: others)) ->
  dict_lookup choice (str "message") = Some (VDict msg) ->
  dict_lookup msg (str "content") = Some (VStr s) ->
  span_free (str "<think>") (str "</think>") s ->
  span_free (str "<thinking>") (str "</thinking>") s ->
  (Backend.chat self message model history false w).1
  = Ok (VStr (strip s)).
Proof.
  intros Hserver Hst Hjs Hchoices Hmsg Hcontent Hthink Hthinking.
  rewrite (chat_content self message model history false w r d choice msg
             others s Hserver Hst Hjs Hchoices Hmsg Hcontent).
  rewrite think_re_span, thinking_re_span.
  rewrite (sub_span_free (str "<think>") (str "</think>") s) by done.
  by rewrite (sub_span_free (str "<thinking>") (str "</thinking>") s)
    by done.
Qed.

Lemma spans_removed_sublist (open close s out : pystr) :
  spans_removed open close s out -> out `sublist_of` s.
Proof.
  induction 1 as [|o body c rest out _ _ _ _ IH|ch s out _ _ IH].
  - done.
  - do 3 apply sublist_inserts_l. exact IH.
  - by apply sublist_skip.
Qed.

Lemma trimmed_sublist (s out : pystr) : trimmed s out -> out `sublist_of` s.
Proof.
  intros (pre & post & -> & _). apply sublist_inserts_l, sublist_inserts_r.
  done.
Qed.

(** X18. The clean-up only takes characters away: the text [chat] returns
    for a successful response is the text of the response with some of its
    characters left out, none added and none moved. *)
Theorem chat_cleanup_only_deletes (self : Backend.VLLMClient)
    (message model : pystr) (history : option loc) (enable_thinking : bool)
    (w : world) (r : response) (d choice msg : list (pystr * value))
    (others : list value) (s : pystr) :
  server (chat_request self model
            (history_of w history ++ [Backend.user_message message]) false)
  = NetResp r ->
  status_code r = 200%Z ->
  json_loads (text r) = Some (VDict d) ->
  dict_lookup d (str "choices") = Some (VList (VDict choice :: others)) ->
  dict_lookup choice (str "message") = Some (VDict msg) ->
  dict_lookup msg (str "content") = Some (VStr s) ->
  ∃ out,
    (Backend.chat self message model history enable_thinking w).1
    = Ok (VStr out)
    ∧ out `sublist_of` s.
Proof.
  intros Hserver Hst Hjs Hchoices Hmsg Hcontent.
  eexists. split; [by eapply chat_content|].
  destruct enable_thinking; [done|].
  etrans; [apply trimmed_sublist, strip_trimmed|].
  rewrite think_re_span, thinking_re_span.
  etrans; eapply spans_removed_sublist; by apply sub_removes.
Qed.

(** X19. When the [content] of the answer is not a string (the [null] of
    an answer that is a tool call, say), [chat] returns it as it is with
    thinking enabled, and raises [TypeError], out of [re.sub], with
    thinking disabled. *)
Theorem chat_content_not_text (self : Backend.VLLMClient)
    (message model : pystr) (history : option loc) (enable_thinking : bool)
    (w : world) (r : response) (d choice msg : list (pystr * value))
    (others : list value) (v : value) :
  server (chat_request self model
            (history_of w history ++ [Backend.user_message message]) false)
  = NetResp r ->
  status_code r = 200%Z ->
  json_loads (text r) = Some (VDict d) ->
  dict_lookup d (str "choices") = Some (VList (VDict choice :: others)) ->
  dict_lookup choice (str "message") = Some (VDict msg) ->
  dict_lookup msg (str "content") = Some v ->
  (∀ s, v ≠ VStr s) ->
  (Backend.chat self message model history enable_thinking w).1
  = if enable_thinking then Ok v else Raise TypeError.
Proof.
  intros Hserver Hst Hjs Hchoices Hmsg Hcontent Hv.
  unfold Backend.chat, chat_request in *.
  destruct history as [h|]; simpl in Hserver;
    repeat (erewrite bind_ok; [|reflexivity]);
    repeat (erewrite try_bind_ok; [|reflexivity]);
    unfold try_request, mbind, M_bind, bind, send, response_json;
    simpl heap; rewrite ?lookup_total_insert_eq; cbn [app];
    rewrite Hserver, Hst; change (200 =? 200)%Z with true; cbv iota;
    rewrite Hjs; unfold lift, getitem_key; cbn [ret];
    rewrite Hchoices; cbn [getitem_idx index_of length]; simpl;
    rewrite Hmsg, Hcontent; destruct enable_thinking; try done;
    destruct v; try done; by destruct (Hv s).
Qed.

End Cleanup.

(** ** Answers without [data] *)

Section NoData.
Context `{Runtime}.

(** X20. A successful response whose object has no [data] counts as an
    empty one: [list_models] and [generate_embedding] return the empty
    list, and print nothing. *)
Theorem missing_data_is_empty (backend : Backend.VLLMClient)
    (rag : Rag.VLLMClient) (model text : pystr) (w : world) (r : response)
    (d : list (pystr * value)) :
  (∀ req, server req = NetResp r) ->
  status_code r = 200%Z ->
  json_loads (Http.text r) = Some (VDict d) ->
  dict_lookup d (str "data") = None ->
  (∃ w', Backend.list_models backend w = (Ok (VList []), w')
         ∧ stdout w' = stdout w)
  ∧ (∃ w', Rag.generate_embedding rag model text w = (Ok (VList []), w')
           ∧ stdout w' = stdout w).
Proof.
  intros Hserver Hst Hjs Hdata.
  assert (Hok : http_error_msg r = None)
    by (apply http_error_msg_2xx; lia).
  unfold Backend.list_models, Rag.generate_embedding.
  unfold try_request, mbind, M_bind, bind, send, raise_for_status,
    response_json.
  rewrite !Hserver, Hst, Hok. change (200 =? 200)%Z with true. cbv iota.
  cbn [ret]. rewrite Hjs. unfold lift, get_method, contains_str. cbn [ret].
  rewrite Hdata. simpl.
  split; by eexists.
Qed.

End NoData.

(** ** The request of [stream_completion] *)

Section Streaming.
Context `{Runtime} `{Imaging}.

(** X21. [stream_completion] sends one request, to the endpoint
    [generate_completion] would send to and with the same body but for
    [stream], which is [True]; the response is asked for as a stream. *)
Theorem stream_completion_endpoint (self : Rag.VLLMClient)
    (model prompt : pystr) (images : option (list image)) (w : world) :
  ∃ req,
    sent (Rag.stream_completion self model prompt images w).2
    = sent w ++ [req]
    ∧ req_method req = POST
    ∧ req_stream req = true
    ∧ req_headers req = Rag.headers self
    ∧ match images with
      | Some (img :: rest) =>
          req_url req = Rag.host self ++ str "/v1/chat/completions"
          ∧ req_json req
            = Some (VDict
                [(str "model", VStr model);
                 (str "messages",
                  VList [VDict
                    [(str "role", VStr (str "user"));
                     (str "content",
                      VList (VDict [(str "type", VStr (str "text"));
                                    (str "text", VStr prompt)]
                             :: map png_part (img :: rest)))]]);
                 (str "stream", VBool true);
                 (str "max_tokens", VInt 1024);
                 (str "temperature", VFloat 0x1.6666666666666p-1)])
      | _ =>
          req_url req = Rag.host self ++ str "/v1/completions"
          ∧ req_json req
            = Some (VDict
                [(str "model", VStr model);
                 (str "prompt", VStr prompt);
                 (str "stream", VBool true);
                 (str "max_tokens", VInt 1024);
                 (str "temperature", VFloat 0x1.6666666666666p-1)])
      end.
Proof.
  assert (Hchat : ∀ t, respects same_sent (Rag.stream_line_chat t))
    by (intros; apply (respects_stream_line_chat same_sent same_sent_yield)).
  assert (Htext : ∀ t, respects same_sent (Rag.stream_line_text t))
    by (intros; apply (respects_stream_line_text same_sent same_sent_yield)).
  assert (Hloop : ∀ on_line r,
            (∀ t, respects same_sent (on_line t)) ->
            respects same_sent
              (raise_for_status r;;
               Rag.stream_lines on_line (body_lines r) (body_error r))).
  { intros on_line r Hline. same_sent.
    by apply (respects_stream_lines same_sent). }
  assert (Hhandler : ∀ e, respects same_sent
            (yield (VStr (str "Connection error: " ++ e))))
    by (intros; same_sent).
  unfold Rag.stream_completion.
  destruct images as [[|img rest]|]; simpl Rag.some_images; cbv iota zeta.
  - eexists. rewrite sent_after_send; [|by auto|done].
    split; [reflexivity|]. done.
  - erewrite try_bind_ok; [|reflexivity].
    erewrite try_bind_ok; [|apply append_images_run, lookup_insert_eq].
    erewrite try_bind_ok; [|reflexivity].
    eexists. rewrite sent_after_send; [|by auto|done].
    split; [reflexivity|]. simpl.
    rewrite insert_insert_eq, lookup_total_insert_eq. done.
  - eexists. rewrite sent_after_send; [|by auto|done].
    split; [reflexivity|]. done.
Qed.

End Streaming.

(** ** Blank lines *)

Section Blank.
Context `{Runtime}.

Lemma chat_stream_lines_blank (enable_thinking : bool)
    (pre post : list bytes) (err : option (request_error * pystr))
    (w : world) :
  Backend.chat_stream_lines enable_thinking (pre ++ [] :: post) err w
  = Backend.chat_stream_lines enable_thinking (pre ++ post) err w.
Proof.
  revert w. induction pre as [|l pre IH]; intros w; simpl; [done|].
  case_bool_decide; [apply IH|].
  unfold mbind, M_bind, bind.
  destruct (decode l w) as [[lt|e] w1]; [|done].
  destruct (streq _ _); [done|].
  destruct (Backend.chat_stream_line _ _ w1) as [[[]|e] w2]; [|done].
  apply IH.
Qed.

Lemma stream_lines_blank (on_line : pystr -> M unit)
    (pre post : list bytes) (err : option (request_error * pystr))
    (w : world) :
  Rag.stream_lines on_line (pre ++ [] :: post) err w
  = Rag.stream_lines on_line (pre ++ post) err w.
Proof.
  revert w. induction pre as [|l pre IH]; intros w; simpl; [done|].
  case_bool_decide; [apply IH|].
  unfold mbind, M_bind, bind.
  destruct (decode l w) as [[lt|e] w1]; [|done].
  destruct (streq _ _); [done|].
  destruct (on_line _ w1) as [[[]|e] w2]; [|done].
  apply IH.
Qed.

End Blank.

Section BlankOperations.
Context {R : Runtime} {I : Imaging}.

(** X22. The blank lines that stand between the events of a stream count
    for nothing: [chat_stream] and [stream_completion] run on a response
    with a blank line, wherever it stands, as on the response without
    it. *)
Theorem blank_line_skipped (backend : Backend.VLLMClient)
    (rag : Rag.VLLMClient) (message model prompt : pystr)
    (history : option loc) (images : option (list image))
    (enable_thinking : bool) (w : world) (r : response)
    (pre post : list bytes) :
  let with_blank :=
    with_server R (fun _ => NetResp (with_lines r (pre ++ [] :: post))) in
  let without :=
    with_server R (fun _ => NetResp (with_lines r (pre ++ post))) in
  @Backend.chat_stream with_blank backend message model history
     enable_thinking w
  = @Backend.chat_stream without backend message model history
      enable_thinking w
  ∧ @Rag.stream_completion with_blank _ rag model prompt images w
    = @Rag.stream_completion without _ rag model prompt images w.
Proof.
  intros with_blank without. split.
  - unfold Backend.chat_stream.
    destruct history as [h|];
      repeat (erewrite bind_ok; [|reflexivity]);
      repeat (erewrite try_bind_ok; [|reflexivity]);
      unfold try_request, mbind, M_bind, bind, send; simpl;
      (destruct (status_code r =? 200)%Z; [|done]);
      rewrite chat_stream_lines_blank;
      lazymatch goal with
      | |- context [@Backend.chat_stream_lines ?R1 ?et (pre ++ post) ?e] =>
          by rewrite (chat_stream_lines_runtime R1 without)
      end.
  - unfold Rag.stream_completion.
    destruct images as [[|img rest]|]; simpl Rag.some_images; cbv iota zeta;
      (lazymatch goal with |- _ = ?rhs => set (run_without := rhs) end);
      repeat (erewrite try_bind_ok;
              [|first [apply append_images_run, lookup_insert_eq
                      |reflexivity]]);
      subst run_without;
      (lazymatch goal with |- ?lhs = _ => set (run_with_blank := lhs) end);
      repeat (erewrite try_bind_ok;
              [|first [apply append_images_run, lookup_insert_eq
                      |reflexivity]]);
      subst run_with_blank;
      unfold try_request, mbind, M_bind, bind, send, raise_for_status;
      cbn [server with_blank without with_server];
      change (http_error_msg (with_lines r ?ls)) with (http_error_msg r);
      (destruct (http_error_msg r); [reflexivity|]);
      cbn [body_lines body_error with_lines ret raise];
      rewrite stream_lines_blank;
      lazymatch goal with
      | |- context [Rag.stream_lines (@Rag.stream_line_chat ?R1)
                      (pre ++ post) ?e ?w1] =>
          by rewrite (proj1 (stream_lines_runtime R1 without _ _ eq_refl eq_refl))
      | |- context [Rag.stream_lines (@Rag.stream_line_text ?R1)
                      (pre ++ post) ?e ?w1] =>
          by rewrite (proj2 (stream_lines_runtime R1 without _ _ eq_refl eq_refl))
      end.
Qed.

End BlankOperations.

(** * The properties at concrete inputs *)

(** ** Observations at concrete inputs *)

Section Observations.
Import Examples.

(** A status other than 200 and a failure of the network come back from
    [chat] as text. *)
Example chat_error_text :
  (@Backend.chat (answering (NetResp (Demo.reply_body 503 (str "busy"))))
     (Demo.backend unreachable) (str "Hello") (str "llama3.2") None true
     Demo.empty_world).1
  = Ok (VStr (str "Error: 503 - busy"))
  ∧ (@Backend.chat unreachable (Demo.backend unreachable) (str "Hello")
       (str "llama3.2") None true Demo.empty_world).1
    = Ok (VStr (str "Connection error: Connection refused")).
Proof. split; by vm_compute. Qed.

(** The fragment behind a line that does not parse is yielded, and nothing
    behind the end marker. *)
Example fragment_behind_bad_line :
  yielded
    (@Backend.chat_stream
       (answering (NetResp (Demo.reply_lines
                              [bad_line; hi_line; done_line; hi_line])))
       (Demo.backend unreachable) (str "Hello") (str "llama3.2") None false
       Demo.empty_world).2
  = [VStr (str "Hi")].
Proof. by vm_compute. Qed.

(** A line that is not UTF-8 text is not a matter of [json.loads]: the
    exception of [decode] ends the generator. *)
Example undecodable_line_raises :
  (@Backend.chat_stream
     (answering (NetResp (Demo.reply_lines [[Byte.xff]; hi_line; done_line])))
     (Demo.backend unreachable) (str "Hello") (str "llama3.2") None true
     Demo.empty_world).1
  = Raise UnicodeDecodeError.
Proof. by vm_compute. Qed.

(** Each [re.sub] is one pass from the left: a span that comes about when
    the text around a removed span closes up is not looked for again. *)
Example removal_is_one_pass :
  Re.sub Re.think_re (str "<thi<think>x</think>nk>y</think>")
  = str "<think>y</think>".
Proof. by vm_compute. Qed.

(** The tags are found whatever the case of their letters, and a span may
    run over line ends. *)
Example tags_in_any_case :
  strip (Re.sub Re.thinking_re
           (Re.sub Re.think_re
              (str " a<THINK>x" ++ [10] ++ str "y</Think>b<Thinking>z</THINKING> ")))
  = str "ab".
Proof. by vm_compute. Qed.

End Observations.

Section AtInputs.
Import Examples.

Lemma missing_choices_raises_witness :
  (@Backend.chat no_choices (Demo.backend no_choices)
     (str "Hello") (str "llama3.2") None true Demo.empty_world).1
  = Raise KeyError
  ∧ (@Rag.generate_completion no_choices Demo.imaging
       (Demo.rag no_choices) (str "llama3.2") (str "Hello")
       None Demo.empty_world).1
    = Raise KeyError.
Proof.
  apply (@missing_choices_raises no_choices Demo.imaging)
    with (r := Demo.reply_body 200 (str "{}")) (d := []).
  - intros req. reflexivity.
  - reflexivity.
  - vm_compute. reflexivity.
  - reflexivity.
Defined.

Lemma chat_thinking_cleanup_witness :
  (@Backend.chat thinking_answer (Demo.backend thinking_answer)
     (str "Hello") (str "llama3.2") None false Demo.empty_world).1
  = Ok (VStr (str "AB"))
  ∧ (@Backend.chat thinking_answer (Demo.backend thinking_answer)
       (str "Hello") (str "llama3.2") None true Demo.empty_world).1
    = Ok (VStr (str "A<think>secret</think>B")).
Proof.
  split.
  - destruct (@chat_thinking_cleanup thinking_answer
                (Demo.backend thinking_answer) (str "Hello")
                (str "llama3.2") None false Demo.empty_world
                (Demo.reply_body 200 answer_body)
                [(str "choices",
                  VList [VDict [(str "message",
                                 VDict [(str "content",
                                         VStr (str "A<think>secret</think>B"))])]])]
                [(str "message",
                  VDict [(str "content",
                          VStr (str "A<think>secret</think>B"))])]
                [(str "content", VStr (str "A<think>secret</think>B"))]
                [] (str "A<think>secret</think>B"))
      as (out & Hrun & _ & _ & Hab);
      [reflexivity|reflexivity|vm_compute; reflexivity|reflexivity..|].
    rewrite Hrun, (Hab eq_refl eq_refl). reflexivity.
  - destruct (@chat_thinking_cleanup thinking_answer
                (Demo.backend thinking_answer) (str "Hello")
                (str "llama3.2") None true Demo.empty_world
                (Demo.reply_body 200 answer_body)
                [(str "choices",
                  VList [VDict [(str "message",
                                 VDict [(str "content",
                                         VStr (str "A<think>secret</think>B"))])]])]
                [(str "message",
                  VDict [(str "content",
                          VStr (str "A<think>secret</think>B"))])]
                [(str "content", VStr (str "A<think>secret</think>B"))]
                [] (str "A<think>secret</think>B"))
      as (out & Hrun & Hsame & _);
      [reflexivity|reflexivity|vm_compute; reflexivity|reflexivity..|].
    rewrite Hrun, (Hsame eq_refl). reflexivity.
Defined.

Lemma chat_stream_hi_then_done_witness :
  ∃ w',
    @Backend.chat_stream hi_stream (Demo.backend hi_stream) (str "Hello")
      (str "llama3.2") None false Demo.empty_world
    = (Ok tt, w')
    ∧ yielded w' = [VStr (str "Hi")].
Proof.
  apply (@chat_stream_hi_then_done hi_stream (Demo.backend hi_stream)
           (str "Hello") (str "llama3.2") None false Demo.empty_world
           (Demo.reply_lines [hi_line; done_line]) []).
  - vm_compute. reflexivity.
  - reflexivity.
  - reflexivity.
  - reflexivity.
  - reflexivity.
Defined.



Lemma list_models_in_server_order_witness :
  ∃ w',
    @Backend.list_models two_models (Demo.backend two_models)
      Demo.empty_world
    = (Ok (VList [VStr (str "llama3.2"); VStr (str "qwen3")]), w').
Proof.
  apply (@list_models_in_server_order two_models).
  apply (@listing_valid two_models (Demo.reply_body 200 models_body)
           [(str "data",
             VList [VDict [(str "id", VStr (str "llama3.2"))];
                    VDict [(str "id", VStr (str "qwen3"))]])]
           [VDict [(str "id", VStr (str "llama3.2"))];
            VDict [(str "id", VStr (str "qwen3"))]]).
  - reflexivity.
  - vm_compute. reflexivity.
  - reflexivity.
  - repeat constructor; eexists; (split; [reflexivity|reflexivity]).
Defined.

Lemma generate_embedding_first_or_empty_witness :
  ∃ w',
    @Rag.generate_embedding one_embedding (Demo.rag one_embedding)
      (str "embedder") (str "some text") Demo.empty_world
    = (Ok (VList [VFloat 0.5; VFloat 0.25]), w').
Proof.
  apply (@generate_embedding_first_or_empty one_embedding).
  apply (@embedding_first one_embedding (Demo.reply_body 200 embedding_body)
           [(str "data",
             VList [VDict [(str "embedding",
                            VList [VFloat 0.5; VFloat 0.25])]])]
           (VDict [(str "embedding", VList [VFloat 0.5; VFloat 0.25])])
           [] [(str "embedding", VList [VFloat 0.5; VFloat 0.25])]).
  - simpl. lia.
  - vm_compute. reflexivity.
  - reflexivity.
  - reflexivity.
  - reflexivity.
Defined.

Lemma history_list_unchanged_witness :
  heap (@Backend.chat thinking_answer (Demo.backend thinking_answer)
          (str "Hello") (str "llama3.2") (Some 1%positive) true talking).2
  !! 1%positive
  = Some [earlier].
Proof.
  apply (@history_list_unchanged thinking_answer
           (Demo.backend thinking_answer) (str "Hello") (str "llama3.2")
           1%positive true talking [earlier]).
  vm_compute. reflexivity.
Defined.

End AtInputs.

(** ** The further properties at concrete inputs *)

Section AtMoreInputs.
Import Examples Cases.

Lemma pull_model_iff_listed_witness :
  ∃ (available : bool) (w' : world),
    @Backend.pull_model two_models formatting (Demo.backend two_models)
      (str "qwen3") Demo.empty_world
    = (Ok (VBool available), w')
    ∧ (available = true
       ↔ VStr (str "qwen3") ∈ [VStr (str "llama3.2"); VStr (str "qwen3")])
    ∧ sent w'
      = sent Demo.empty_world
        ++ [models_request (Demo.backend two_models) None].
Proof.
  apply (@pull_model_iff_listed two_models formatting).
  apply (@listing_valid two_models (Demo.reply_body 200 models_body)
           [(str "data",
             VList [VDict [(str "id", VStr (str "llama3.2"))];
                    VDict [(str "id", VStr (str "qwen3"))]])]
           [VDict [(str "id", VStr (str "llama3.2"))];
            VDict [(str "id", VStr (str "qwen3"))]]).
  - reflexivity.
  - vm_compute. reflexivity.
  - reflexivity.
  - repeat constructor; eexists; (split; [reflexivity|reflexivity]).
Defined.

Lemma list_models_reports_network_failure_witness :
  stdout (@Backend.list_models unreachable (Demo.backend unreachable)
            Demo.empty_world).2
  = [str "Error fetching models: Connection refused"].
Proof.
  apply (@list_models_reports_network_failure unreachable
           (Demo.backend unreachable) Demo.empty_world []).
  apply (@listing_failure unreachable).
Defined.

Lemma chat_failure_text_witness :
  ∃ w',
    @Backend.chat busy (Demo.backend busy) (str "Hello") (str "llama3.2")
      None false Demo.empty_world
    = (Ok (VStr (str "Error: 503 - busy")), w')
    ∧ stdout w' = [].
Proof.
  apply (@chat_failure_text busy (Demo.backend busy) (str "Hello")
           (str "llama3.2") None false Demo.empty_world
           (str "Error: 503 - busy")).
  apply (refusal_status (Demo.reply_body 503 (str "busy"))).
  simpl. lia.
Defined.

Lemma chat_stream_failure_fragment_witness :
  ∃ w',
    @Backend.chat_stream unreachable (Demo.backend unreachable)
      (str "Hello") (str "llama3.2") None true Demo.empty_world
    = (Ok tt, w')
    ∧ yielded w' = [VStr (str "Connection error: Connection refused")].
Proof.
  apply (@chat_stream_failure_fragment unreachable
           (Demo.backend unreachable) (str "Hello") (str "llama3.2") None
           true Demo.empty_world
           (str "Connection error: Connection refused")).
  apply (refusal_network ConnectionError (str "Connection refused")).
Defined.

Lemma generate_embedding_failure_logged_witness :
  ∃ w',
    @Rag.generate_embedding unreachable (Demo.rag unreachable)
      (str "embedder") (str "some text") Demo.empty_world
    = (Ok (VList []), w')
    ∧ stdout w'
      = [str "Error generating embedding: Connection refused"].
Proof.
  apply (@generate_embedding_failure_logged unreachable
           (Demo.rag unreachable) (str "embedder") (str "some text")
           Demo.empty_world (str "Connection refused")).
  apply (failure_network ConnectionError (str "Connection refused")).
Defined.

Lemma generate_completion_failure_logged_witness :
  ∃ w',
    @Rag.generate_completion unreachable Demo.imaging
      (Demo.rag unreachable) (str "llama3.2") (str "Hello")
      (Some [str "iVBORw0KGgo="]) Demo.empty_world
    = (Ok (VDict []), w')
    ∧ stdout w'
      = [str "Error generating completion: Connection refused"].
Proof.
  apply (@generate_completion_failure_logged unreachable Demo.imaging
           (Demo.rag unreachable) (str "llama3.2") (str "Hello")
           (Some [str "iVBORw0KGgo="]) Demo.empty_world
           (NetFail ConnectionError (str "Connection refused"))
           (str "Connection refused")).
  - intros req. reflexivity.
  - apply failure_network.
Defined.

Lemma stream_completion_failure_fragment_witness :
  ∃ w',
    @Rag.stream_completion not_found Demo.imaging (Demo.rag not_found)
      (str "llama3.2") (str "Hello") None Demo.empty_world
    = (Ok tt, w')
    ∧ yielded w'
      = [VStr (str "Connection error: 404 Client Error:  for url: http://localhost:8000")].
Proof.
  apply (@stream_completion_failure_fragment not_found Demo.imaging
           (Demo.rag not_found) (str "llama3.2") (str "Hello") None
           Demo.empty_world (NetResp (Demo.reply_body 404 (str "")))
           (str "404 Client Error:  for url: http://localhost:8000")).
  - intros req. reflexivity.
  - apply failure_status. vm_compute. reflexivity.
Defined.

Lemma generate_completion_answer_witness :
  ∃ w',
    @Rag.generate_completion completing Demo.imaging (Demo.rag completing)
      (str "llama3.2") (str "Hello") None Demo.empty_world
    = (Ok (VDict [(str "response", VStr (str "Hello"));
                  (str "done", VBool true)]), w')
    ∧ stdout w' = [].
Proof.
  apply (@generate_completion_answer completing Demo.imaging
           (Demo.rag completing) (str "llama3.2") (str "Hello") None
           Demo.empty_world (Demo.reply_body 200 completion_body)
           [(str "choices",
             VList [VDict [(str "text", VStr (str "Hello"))]])]
           [(str "text", VStr (str "Hello"))] []).
  - intros req. reflexivity.
  - simpl. lia.
  - vm_compute. reflexivity.
  - reflexivity.
  - reflexivity.
Defined.

Lemma chat_stream_filters_thinking_witness :
  ∃ new,
    yielded (@Backend.chat_stream hi_stream (Demo.backend hi_stream)
               (str "Hello") (str "llama3.2") None false
               Demo.empty_world).2
    = [] ++ new
    ∧ Forall (@plain_fragment hi_stream) new.
Proof.
  apply (@chat_stream_filters_thinking hi_stream (Demo.backend hi_stream)
           (str "Hello") (str "llama3.2") None Demo.empty_world
           (Demo.reply_lines [hi_line; done_line])).
  - reflexivity.
  - reflexivity.
  - reflexivity.
Defined.


Lemma nothing_read_behind_end_marker_witness :
  @Backend.chat_stream
    (with_server unreachable
       (fun _ => NetResp (Demo.reply_lines [hi_line; done_line; hi_line])))
    (Demo.backend unreachable) (str "Hello") (str "llama3.2") None true
    Demo.empty_world
  = @Backend.chat_stream
      (with_server unreachable
         (fun _ => NetResp
                     (with_error
                        (with_lines
                           (Demo.reply_lines [hi_line; done_line; hi_line])
                           ([hi_line] ++ [done_line]))
                        None)))
      (Demo.backend unreachable) (str "Hello") (str "llama3.2") None true
      Demo.empty_world.
Proof.
  assert (Hend : end_marker done_line).
  { exists (map Byte.to_N done_line).
    split; [vm_compute; reflexivity|vm_compute; reflexivity]. }
  exact (proj1 (@nothing_read_behind_end_marker unreachable Demo.imaging
                  (Demo.backend unreachable) (Demo.rag unreachable)
                  (str "Hello") (str "llama3.2") (str "Hello") None None
                  true Demo.empty_world
                  (Demo.reply_lines [hi_line; done_line; hi_line])
                  done_line [hi_line] [hi_line] Hend eq_refl)).
Defined.

Lemma role_event_silent :
  @event completing role_line role_value
  ∧ silent delta_content role_value
  ∧ silent choice_text role_value.
Proof.
  split; [|split].
  - exists (map Byte.to_N role_line). split; [vm_compute; reflexivity|].
    split; [|vm_compute; reflexivity].
    intros Heq. vm_compute in Heq. discriminate Heq.
  - eapply silent_no_text; reflexivity.
  - eapply silent_no_text; reflexivity.
Defined.

Lemma chat_stream_passes_over_silent_event_witness :
  @Backend.chat_stream
    (with_server completing
       (fun _ => NetResp (with_lines (Demo.reply_lines [])
                            ([] ++ role_line :: [hi_line; done_line]))))
    (Demo.backend completing) (str "Hello") (str "llama3.2") None true
    Demo.empty_world
  = @Backend.chat_stream
      (with_server completing
         (fun _ => NetResp (with_lines (Demo.reply_lines [])
                              ([] ++ [hi_line; done_line]))))
      (Demo.backend completing) (str "Hello") (str "llama3.2") None true
      Demo.empty_world.
Proof.
  exact (@chat_stream_passes_over_silent_event completing
           (Demo.backend completing) (str "Hello") (str "llama3.2") None
           true Demo.empty_world (Demo.reply_lines []) role_line role_value
           [] [hi_line; done_line] (proj1 role_event_silent)
           (proj1 (proj2 role_event_silent))).
Defined.

Lemma stream_completion_passes_over_silent_event_witness :
  @Rag.stream_completion
    (with_server completing
       (fun _ => NetResp (with_lines (Demo.reply_lines [])
                            ([] ++ role_line :: [done_line]))))
    Demo.imaging (Demo.rag completing) (str "llama3.2") (str "Hello") None
    Demo.empty_world
  = @Rag.stream_completion
      (with_server completing
         (fun _ => NetResp (with_lines (Demo.reply_lines [])
                              ([] ++ [done_line]))))
      Demo.imaging (Demo.rag completing) (str "llama3.2") (str "Hello") None
      Demo.empty_world.
Proof.
  exact (@stream_completion_passes_over_silent_event completing
           Demo.imaging (Demo.rag completing) (str "llama3.2")
           (str "Hello") None Demo.empty_world (Demo.reply_lines [])
           role_line role_value [] [done_line] (proj1 role_event_silent)
           (proj2 (proj2 role_event_silent))).
Defined.

Lemma api_key_sent_with_every_request_witness :
  respects (sends_only (bearer (str "secret")))
    (@Backend.chat unreachable
       (@Backend.init unreachable (Some (str "http://localhost:8000/"))
          (Some (str "secret")))
       (str "Hello") (str "llama3.2") None true).
Proof.
  apply (@api_key_sent_with_every_request unreachable Demo.imaging
           formatting (str "http://localhost:8000/") (str "secret")
           (str "llama3.2") (str "Hello") (str "Hello") (str "some text")
           None None true).
  discriminate.
Defined.

Lemma chat_keeps_text_without_spans_witness :
  (@Backend.chat unclosed_answer (Demo.backend unclosed_answer)
     (str "Hello") (str "llama3.2") None false Demo.empty_world).1
  = Ok (VStr (str "a<think>b")).
Proof.
  apply (@chat_keeps_text_without_spans unclosed_answer
           (Demo.backend unclosed_answer) (str "Hello") (str "llama3.2")
           None Demo.empty_world (Demo.reply_body 200 unclosed_body)
           [(str "choices",
             VList [VDict [(str "message",
                            VDict [(str "content",
                                    VStr (str " a<think>b "))])]])]
           [(str "message",
             VDict [(str "content", VStr (str " a<think>b "))])]
           [(str "content", VStr (str " a<think>b "))]
           [] (str " a<think>b ")).
  - reflexivity.
  - reflexivity.
  - vm_compute. reflexivity.
  - reflexivity.
  - reflexivity.
  - reflexivity.
  - apply no_close_span_free. vm_compute. reflexivity.
  - apply no_close_span_free. vm_compute. reflexivity.
Defined.

Lemma chat_cleanup_only_deletes_witness :
  ∃ out,
    (@Backend.chat thinking_answer (Demo.backend thinking_answer)
       (str "Hello") (str "llama3.2") None false Demo.empty_world).1
    = Ok (VStr out)
    ∧ out `sublist_of` str "A<think>secret</think>B".
Proof.
  apply (@chat_cleanup_only_deletes thinking_answer
           (Demo.backend thinking_answer) (str "Hello") (str "llama3.2")
           None false Demo.empty_world (Demo.reply_body 200 answer_body)
           [(str "choices",
             VList [VDict [(str "message",
                            VDict [(str "content",
                                    VStr (str "A<think>secret</think>B"))])]])]
           [(str "message",
             VDict [(str "content", VStr (str "A<think>secret</think>B"))])]
           [(str "content", VStr (str "A<think>secret</think>B"))]
           []).
  - reflexivity.
  - reflexivity.
  - vm_compute. reflexivity.
  - reflexivity.
  - reflexivity.
  - reflexivity.
Defined.

Lemma chat_content_not_text_witness :
  (@Backend.chat null_answer (Demo.backend null_answer) (str "Hello")
     (str "llama3.2") None true Demo.empty_world).1
  = Ok VNone
  ∧ (@Backend.chat null_answer (Demo.backend null_answer) (str "Hello")
       (str "llama3.2") None false Demo.empty_world).1
    = Raise TypeError.
Proof.
  split.
  - apply (@chat_content_not_text null_answer (Demo.backend null_answer)
             (str "Hello") (str "llama3.2") None true Demo.empty_world
             (Demo.reply_body 200 null_body)
             [(str "choices",
               VList [VDict [(str "message",
                              VDict [(str "content", VNone)])]])]
             [(str "message", VDict [(str "content", VNone)])]
             [(str "content", VNone)] [] VNone);
      [reflexivity|reflexivity|vm_compute; reflexivity|reflexivity..
      |discriminate].
  - apply (@chat_content_not_text null_answer (Demo.backend null_answer)
             (str "Hello") (str "llama3.2") None false Demo.empty_world
             (Demo.reply_body 200 null_body)
             [(str "choices",
               VList [VDict [(str "message",
                              VDict [(str "content", VNone)])]])]
             [(str "message", VDict [(str "content", VNone)])]
             [(str "content", VNone)] [] VNone);
      [reflexivity|reflexivity|vm_compute; reflexivity|reflexivity..
      |discriminate].
Defined.

Lemma missing_data_is_empty_witness :
  (∃ w', @Backend.list_models no_choices (Demo.backend no_choices)
           Demo.empty_world
         = (Ok (VList []), w')
         ∧ stdout w' = [])
  ∧ (∃ w', @Rag.generate_embedding no_choices (Demo.rag no_choices)
             (str "embedder") (str "some text") Demo.empty_world
           = (Ok (VList []), w')
           ∧ stdout w' = []).
Proof.
  apply (@missing_data_is_empty no_choices (Demo.backend no_choices)
           (Demo.rag no_choices) (str "embedder") (str "some text")
           Demo.empty_world (Demo.reply_body 200 (str "{}")) []).
  - intros req. reflexivity.
  - reflexivity.
  - vm_compute. reflexivity.
  - reflexivity.
Defined.

End AtMoreInputs.
